(** * The KI Self Sustain dashboard: a shallow embedding

    The repository is a React dashboard (SystemMonitor, FlowiseManager,
    ChatInterface, the App shell) that polls a backend over HTTP, plus shell
    scripts that drive docker-compose.  The event handlers of the components
    are embedded as programs of a small monad that records their effects
    (requests, React state updates, console output, dialogs); the network, the
    clock and the random generator are inputs.  The start script is embedded
    as a command list run by an interpreter of the shell's [set -e] rule.

    Strings are Rocq strings, read as the bytes of the UTF-8 text: [trim]
    knows the white space of the language in this encoding, and
    [toLowerCase] the characters whose lower case has ASCII letters.
    Numbers are rationals; what JavaScript computes with floating point or
    prints from values is left to the [Host] class. *)

From Stdlib Require Import Ascii String QArith DecimalString.
From stdpp Require Import gmap strings list fin_maps.

(** ** JavaScript values and strings *)

Module JS.

(** A value as [response.json()] can produce it, plus [undefined]. *)
#[warnings="-register-all"]
Inductive JsVal : Type :=
  | JUndefined
  | JNull
  | JBool (b : bool)
  | JNum (q : Q)
  | JStr (s : string)
  | JArr (items : list JsVal)
  | JObj (fields : gmap string JsVal).

(** How an evaluation ends: with a value, or with a thrown [Error] whose
    [message] is kept. *)
Inductive Completion (A : Type) : Type :=
  | Normal (a : A)
  | Throw (message : string).
Arguments Normal {A} a.
Arguments Throw {A} message.

(** ToBoolean. *)
Definition truthy (v : JsVal) : bool :=
  match v with
  | JUndefined | JNull => false
  | JBool b => b
  | JNum q => negb (Qnum q =? 0)%Z
  | JStr s => negb (String.eqb s EmptyString)
  | JArr _ | JObj _ => true
  end.

(** [a || b] *)
Definition js_or (a b : JsVal) : JsVal := if truthy a then a else b.

(** [a === 'literal'] *)
Definition is_str (v : JsVal) (lit : string) : bool :=
  match v with
  | JStr s => String.eqb s lit
  | _ => false
  end.

Definition num_of_nat (n : nat) : JsVal := JNum (inject_Z (Z.of_nat n)).

(** [v.k] for a named property [k]: a TypeError on [null] and [undefined];
    arrays and strings answer [length]; other primitives have none of the
    properties the dashboard reads. *)
Definition get (v : JsVal) (k : string) : Completion JsVal :=
  match v with
  | JUndefined => Throw ("Cannot read properties of undefined (reading '" +:+ k +:+ "')")
  | JNull => Throw ("Cannot read properties of null (reading '" +:+ k +:+ "')")
  | JObj fields => Normal (default JUndefined (fields !! k))
  | JArr items =>
      Normal (if String.eqb k "length" then num_of_nat (length items) else JUndefined)
  | JStr s =>
      Normal (if String.eqb k "length" then num_of_nat (String.length s) else JUndefined)
  | JBool _ | JNum _ => Normal JUndefined
  end.

(** [v?.k] *)
Definition get_opt (v : JsVal) (k : string) : JsVal :=
  match v with
  | JUndefined | JNull => JUndefined
  | _ => match get v k with Normal x => x | Throw _ => JUndefined end
  end.

(** [Object.keys(v).length] for a truthy [v]. *)
Definition keys_length (v : JsVal) : nat :=
  match v with
  | JObj fields => size fields
  | JArr items => length items
  | JStr s => String.length s
  | _ => 0
  end.

(** [{...v}]: the own enumerable properties of an object; the dashboard
    spreads only objects it built or received as JSON objects, and a
    primitive, [null] or [undefined] spreads to nothing. *)
Definition spread (v : JsVal) : gmap string JsVal :=
  match v with
  | JObj fields => fields
  | _ => ∅
  end.

(** *** Strings *)

(** The text of a string is kept in UTF-8; [utf8] spells a character by
    its bytes. *)
Definition utf8 (bytes : list nat) : string :=
  foldr (λ n s, String (ascii_of_nat n) s) EmptyString bytes.

Definition is_byte (c : ascii) (n : nat) : bool := nat_of_ascii c =? n.

Definition is_upper (c : ascii) : bool :=
  let n := nat_of_ascii c in (65 <=? n) && (n <=? 90).

Definition lower_char (c : ascii) : ascii :=
  if is_upper c then ascii_of_nat (nat_of_ascii c + 32) else c.

(** [s.toLowerCase()], for the searches of line 79 to 89. The capitals of
    ASCII become small letters. Outside ASCII two characters have an ASCII
    letter in their lower case: the Kelvin sign U+212A becomes [k], and the
    dotted capital I U+0130 becomes [i] with the combining dot U+0307. The
    lower case of every other character has no ASCII byte in it; these
    characters are kept as they are, which a search for an ASCII word
    cannot tell from their lower case. *)
Fixpoint toLowerCase (s : string) : string :=
  match s with
  | EmptyString => EmptyString
  | String c1 r1 =>
      match r1 with
      | EmptyString => String (lower_char c1) EmptyString
      | String c2 r2 =>
          if is_byte c1 196 && is_byte c2 176
          then String "i" (String "204" (String "135" (toLowerCase r2)))
          else
            match r2 with
            | EmptyString => String (lower_char c1) (toLowerCase r1)
            | String c3 r3 =>
                if is_byte c1 226 && is_byte c2 132 && is_byte c3 170
                then String "k" (toLowerCase r3)
                else String (lower_char c1) (toLowerCase r1)
            end
      end
  end.

(** [s.startsWith(p)] *)
Fixpoint startsWith (s p : string) : bool :=
  match p, s with
  | EmptyString, _ => true
  | String _ _, EmptyString => false
  | String a p', String b s' => if Ascii.eqb a b then startsWith s' p' else false
  end.

(** [s.includes(p)] *)
Fixpoint includes (s p : string) : bool :=
  if startsWith s p then true
  else match s with
       | EmptyString => false
       | String _ rest => includes rest p
       end.

(** The white space and the line terminators of ECMAScript, by the length
    of their UTF-8. One byte: TAB, LF, VT, FF, CR and SPACE. *)
Definition is_space (c : ascii) : bool :=
  let n := nat_of_ascii c in ((9 <=? n) && (n <=? 13)) || (n =? 32).

(** Two bytes: the no-break space U+00A0. *)
Definition is_space2 (c1 c2 : ascii) : bool :=
  is_byte c1 194 && is_byte c2 160.

(** Three bytes: U+1680, U+2000 to U+200A, the line and paragraph
    separators U+2028 and U+2029, U+202F, U+205F, U+3000, and the byte
    order mark U+FEFF. *)
Definition is_space3 (c1 c2 c3 : ascii) : bool :=
  let n := nat_of_ascii c3 in
  (is_byte c1 225 && is_byte c2 154 && is_byte c3 128)
  || (is_byte c1 226 && is_byte c2 128 &&
      (((128 <=? n) && (n <=? 138)) || (n =? 168) || (n =? 169) || (n =? 175)))
  || (is_byte c1 226 && is_byte c2 129 && is_byte c3 159)
  || (is_byte c1 227 && is_byte c2 128 && is_byte c3 128)
  || (is_byte c1 239 && is_byte c2 187 && is_byte c3 191).

(** [s.trimStart()] *)
Fixpoint trimStart (s : string) : string :=
  match s with
  | EmptyString => EmptyString
  | String c1 r1 =>
      if is_space c1 then trimStart r1
      else
        match r1 with
        | EmptyString => s
        | String c2 r2 =>
            if is_space2 c1 c2 then trimStart r2
            else
              match r2 with
              | EmptyString => s
              | String c3 r3 => if is_space3 c1 c2 c3 then trimStart r3 else s
              end
        end
  end.

(** The string is one character of white space. *)
Definition is_space_char (s : string) : bool :=
  match s with
  | String c1 EmptyString => is_space c1
  | String c1 (String c2 EmptyString) => is_space2 c1 c2
  | String c1 (String c2 (String c3 EmptyString)) => is_space3 c1 c2 c3
  | _ => false
  end.

(** [s.trimEnd()]: from the end, what is left of the rest is dropped with
    its first byte when the two make up a character of white space. *)
Fixpoint trimEnd (s : string) : string :=
  match s with
  | EmptyString => EmptyString
  | String c rest =>
      let t := String c (trimEnd rest) in
      if is_space_char t then EmptyString else t
  end.

(** [s.trim()] *)
Definition trim (s : string) : string := trimEnd (trimStart s).

(** [!s] for a string. *)
Definition str_falsy (s : string) : bool := String.eqb s EmptyString.

(** What the host computes and the embedding does not look into: the
    conversion of a value in a template literal, [JSON.stringify] (plain and
    indented), the two [Date] printers, and [v * 100] in floating point. *)
Class Host := {
  ToString : JsVal → string;
  JSON_stringify : JsVal → string;
  JSON_stringify_indent : JsVal → string;
  toISOString : Z → string;
  toLocaleTimeString : Z → string;
  times100 : JsVal → JsVal;
}.

(** [arr.join(sep)] on the items of an array. *)
Fixpoint join `{Host} (items : list JsVal) (sep : string) : string :=
  match items with
  | [] => EmptyString
  | [v] => match v with JUndefined | JNull => EmptyString | _ => ToString v end
  | v :: rest =>
      (match v with JUndefined | JNull => EmptyString | _ => ToString v end)
        +:+ sep +:+ join rest sep
  end.

End JS.

(** ** Effects of an event handler *)

Module Effects.
Import JS.

Inductive Method : Type := GET | POST.

(** The arguments of one [fetch] call. *)
Record Request : Type := {
  url : string;
  method : Method;
  headers : list (string * string);
  body : option string;
}.

(** A response as the handlers use it: its [ok] flag and what [json()]
    settles to. *)
Record Response : Type := {
  ok : bool;
  json : Completion JsVal;
}.

(** A [fetch] promise rejects (network failure) or fulfils with a response,
    whatever its status code. *)
Inductive FetchOutcome : Type :=
  | Rejected (reason : string)
  | Fulfilled (value : Response).

(** What a handler reads from outside: the outcome of each request, the
    clock at each place that reads it, and the random numbers it draws. *)
Record World : Type := {
  net : Request → FetchOutcome;
  clock : nat → Z;
  random : nat → Q;
}.

(** What a handler does to the outside, over a component state [S]: a
    request, a call of a React state setter (as the updater it amounts to),
    a [console.error], an [alert] dialog. *)
Inductive Effect (S : Type) : Type :=
  | Fetch (r : Request)
  | Update (f : S → S)
  | ConsoleError (label : string) (message : string)
  | Alert (text : string).
Arguments Fetch {S} r.
Arguments Update {S} f.
Arguments ConsoleError {S} label message.
Arguments Alert {S} text.

(** An asynchronous function body: it reads the world, leaves a trace of
    effects and completes normally or by throwing. *)
Definition Async (S A : Type) : Type := World → list (Effect S) * Completion A.

#[global] Instance async_ret {S} : MRet (Async S) :=
  λ A a _, ([], Normal a).

#[global] Instance async_bind {S} : MBind (Async S) :=
  λ A B k m w,
    match m w with
    | (t1, Normal a) => let '(t2, r) := k a w in (t1 ++ t2, r)
    | (t1, Throw e) => (t1, Throw e)
    end.

Definition emit {S} (e : Effect S) : Async S unit := λ _, ([e], Normal tt).

Definition throw {S A} (e : string) : Async S A := λ _, ([], Throw e).

(** A synchronous step that may throw. *)
Definition lift {S A} (c : Completion A) : Async S A := λ _, ([], c).

(** [await fetch(r)] *)
Definition fetch {S} (r : Request) : Async S Response :=
  λ w, ([Fetch r],
        match net w r with
        | Rejected reason => Throw reason
        | Fulfilled value => Normal value
        end).

(** [Date.now()] and [new Date()], at the [i]-th place that reads the clock. *)
Definition date_now {S} (i : nat) : Async S Z := λ w, ([], Normal (clock w i)).

(** [Math.random()], the [i]-th draw. *)
Definition math_random {S} (i : nat) : Async S Q := λ w, ([], Normal (random w i)).

(** [try { body } catch (error) { handler }] *)
Definition try_catch {S A} (body : Async S A) (handler : string → Async S A) : Async S A :=
  λ w,
    match body w with
    | (t1, Normal a) => (t1, Normal a)
    | (t1, Throw e) => let '(t2, r) := handler e w in (t1 ++ t2, r)
    end.

(** [try { body } finally { fin }] *)
Definition try_finally {S A} (body : Async S A) (fin : Async S unit) : Async S A :=
  λ w,
    let '(t1, r) := body w in
    match fin w with
    | (t2, Normal _) => (t1 ++ t2, r)
    | (t2, Throw e) => (t1 ++ t2, Throw e)
    end.

(** The requests of a trace, in order. *)
Definition requests {S} (t : list (Effect S)) : list Request :=
  omap (λ e, match e with Fetch r => Some r | _ => None end) t.

(** The updaters of a trace, in order. *)
Definition updates {S} (t : list (Effect S)) : list (S → S) :=
  omap (λ e, match e with Update f => Some f | _ => None end) t.

(** The dialogs of a trace. *)
Definition alerts {S} (t : list (Effect S)) : list string :=
  omap (λ e, match e with Alert s => Some s | _ => None end) t.

(** The console lines of a trace. *)
Definition console {S} (t : list (Effect S)) : list (string * string) :=
  omap (λ e, match e with ConsoleError l m => Some (l, m) | _ => None end) t.

(** React applies the queued updaters in order. *)
Definition apply_updates {S} (t : list (Effect S)) (s : S) : S :=
  foldl (λ acc f, f acc) s (updates t).

Definition json_headers : list (string * string) :=
  [("Content-Type", "application/json")].

(** Every effect a program can leave, in any world, satisfies [P]. *)
Definition leaves {S A} (P : Effect S → Prop) (m : Async S A) : Prop :=
  ∀ w, Forall P (m w).1.

End Effects.

(** ** ChatInterface.jsx *)

Module ChatInterface.
Import JS Effects.

Record Message : Type := {
  m_id : Q;
  m_type : string;
  m_content : string;
  m_timestamp : Z;
  m_status : string;
}.

(** The [useState] cells of the component that the handler touches. *)
Record State : Type := {
  messages : list Message;
  inputValue : string;
  isLoading : bool;
}.

Definition LF : string := String (ascii_of_nat 10) EmptyString.

(** The initial render: one system message, empty input, not loading. *)
Definition initial (t0 : Z) : State :=
  {| messages :=
       [ {| m_id := 1;
            m_type := "system";
            m_content := "KI Self Sustain System initialisiert. Ich bin bereit für Ihre Anweisungen zur Selbstverbesserung und Systemkontrolle.";
            m_timestamp := t0;
            m_status := "success" |} ];
     inputValue := EmptyString;
     isLoading := false |}.

Definition setMessages (f : list Message → list Message) : Async State unit :=
  emit (Update (λ s, {| messages := f (messages s);
                        inputValue := inputValue s;
                        isLoading := isLoading s |})).

Definition setInputValue (v : string) : Async State unit :=
  emit (Update (λ s, {| messages := messages s;
                        inputValue := v;
                        isLoading := isLoading s |})).

Definition setIsLoading (b : bool) : Async State unit :=
  emit (Update (λ s, {| messages := messages s;
                        inputValue := inputValue s;
                        isLoading := b |})).

(** [prev => [...prev, m]] *)
Definition append (m : Message) : list Message → list Message :=
  λ prev, prev ++ [m].

Definition base : string := "http://localhost:5000".

(** Lines 71-92: the endpoint chosen from the text of the input. *)
Definition select_endpoint (input : string) : string :=
  if includes (toLowerCase input) "improve" || includes (toLowerCase input) "optimize"
  then "/api/learning/autonomous-improvement"
  else if includes (toLowerCase input) "status" || includes (toLowerCase input) "health"
  then "/api/ai/status"
  else if includes (toLowerCase input) "flowise" || includes (toLowerCase input) "workflow"
  then "/api/flowise/chatflows"
  else "/api/learning/llm-feedback".

(** Lines 95 and 99: the test on the endpoint that decides method and body. *)
Definition is_get (endpoint : string) : bool :=
  includes endpoint "status" || includes endpoint "chatflows".

Section Handler.
Context `{Host}.

Definition obj (l : list (string * JsVal)) : JsVal := JObj (list_to_map l).

(** Lines 72-92: the request data that goes with the endpoint. [t_default]
    and [t_improve] are the two readings of the clock. *)
Definition select_requestData (input : string) (t_default t_improve : Z) : JsVal :=
  if includes (toLowerCase input) "improve" || includes (toLowerCase input) "optimize"
  then obj [("trigger", JStr "user_request");
            ("context", JStr input);
            ("timestamp", JStr (toISOString t_improve))]
  else if includes (toLowerCase input) "status" || includes (toLowerCase input) "health"
  then obj []
  else if includes (toLowerCase input) "flowise" || includes (toLowerCase input) "workflow"
  then obj []
  else obj [("message", JStr input);
            ("type", JStr "user_interaction");
            ("timestamp", JStr (toISOString t_default))].

(** Lines 94-100. *)
Definition main_request (endpoint : string) (requestData : JsVal) : Request :=
  {| url := base +:+ endpoint;
     method := if is_get endpoint then GET else POST;
     headers := json_headers;
     body := if is_get endpoint then None else Some (JSON_stringify requestData) |}.

(** [data.components.join(', ')] *)
Definition call_join (v : JsVal) (sep : string) : Completion string :=
  match v with
  | JArr items => Normal (join items sep)
  | _ => Throw "data.components.join is not a function"
  end.

(** [data.message.includes(lit)] on a truthy value. *)
Definition call_includes (v : JsVal) (lit : string) : Completion bool :=
  match v with
  | JStr s => Normal (includes s lit)
  | JArr items => Normal (existsb (λ x, is_str x lit) items)
  | _ => Throw "data.message.includes is not a function"
  end.

Definition cbind {A B} (c : Completion A) (k : A → Completion B) : Completion B :=
  match c with
  | Normal a => k a
  | Throw e => Throw e
  end.

(** Lines 111-140: the text of the bot's bubble. *)
Definition botContent (endpoint : string) (response_ok : bool) (data : JsVal)
  : Completion string :=
  if response_ok then
    if includes endpoint "status" then
      cbind (get data "status") (λ st,
      cbind (get data "version") (λ ver,
      cbind (get data "components") (λ comps,
      cbind (if truthy comps then call_join comps ", " else Normal "Alle aktiv") (λ cs,
      cbind (get data "timestamp") (λ ts,
      Normal ("Systemstatus: " +:+ ToString (js_or st (JStr "Aktiv")) +:+ LF +:+
              "Version: " +:+ ToString (js_or ver (JStr "Unbekannt")) +:+ LF +:+
              "Komponenten: " +:+ cs +:+ LF +:+
              "Letzte Aktivität: " +:+ ToString (js_or ts (JStr "Gerade eben"))))))))
    else if includes endpoint "chatflows" then
      cbind (get data "length") (λ len,
      Normal ("Flowise Status: " +:+
              (if truthy len then ToString len +:+ " Chatflows gefunden"
               else "Keine Chatflows verfügbar") +:+ LF +:+
              (if truthy len then "Chatflows können über das Flowise-Panel verwaltet werden."
               else "Erstellen Sie neue Chatflows über das Flowise-Interface.")))
    else if includes endpoint "autonomous-improvement" then
      cbind (get data "status") (λ st,
      cbind (if is_str st "success" then
               cbind (get data "version") (λ ver,
               cbind (get data "improvement_plan") (λ plan,
               Normal ("Version: " +:+ ToString (js_or ver (JStr "Aktualisiert")) +:+ LF +:+
                       "Verbesserungen: " +:+
                       ToString (if truthy plan then num_of_nat (keys_length plan)
                                 else num_of_nat 0) +:+ " Schritte")))
             else
               cbind (get data "message") (λ msg,
               cbind (if truthy msg then Normal msg else get data "error") (λ why,
               Normal ("Grund: " +:+ ToString (js_or why (JStr "Unbekannter Fehler")))))) (λ detail,
      Normal ("Selbstverbesserung " +:+
              (if is_str st "success" then "erfolgreich" else "fehlgeschlagen") +:+ ":" +:+ LF +:+
              detail)))
    else
      cbind (get data "status") (λ st,
      cbind (get data "message") (λ msg,
      cbind (if truthy msg then Normal msg
             else cbind (get data "analysis") (λ an, Normal (get_opt an "analysis"))) (λ txt,
      Normal ("Feedback verarbeitet: " +:+
              (if is_str st "success" then "Erfolgreich" else "Fehler") +:+ LF +:+
              ToString (js_or txt (JStr "Verarbeitung abgeschlossen"))))))
  else
    cbind (get data "message") (λ msg,
    cbind (if truthy msg
           then call_includes msg "No valid chat completion endpoints found"
           else Normal false) (λ specific,
    if specific then
      Normal ("KI-System nicht verfügbar. Automatische Einrichtung wird versucht..." +:+ LF +:+
              "Fehler: " +:+ ToString msg +:+ LF +:+
              "Bitte warten Sie einen Moment und versuchen Sie es erneut.")
    else
      cbind (get data "error") (λ err,
      Normal ("Fehler: " +:+
              ToString (js_or (js_or err msg) (JStr "Unbekannter Fehler")))))).

(** Line 147: the text of the error bubble. *)
Definition errorContent (error_message : string) : string :=
  "Verbindungsfehler: " +:+ error_message +:+ ". Überprüfen Sie, ob das Backend läuft.".

Definition setup_request : Request :=
  {| url := base +:+ "/api/ai/check-and-setup";
     method := POST;
     headers := json_headers;
     body := None |}.

(** Lines 47-142: the body of the [try]. [input] is the [inputValue] of the
    render the handler belongs to. *)
Definition try_body (input : string) : Async State unit :=
  setupResponse ← fetch setup_request;
  setupData ← lift (json setupResponse);
  setup_status ← lift (get setupData "status");
  _ ← (if is_str setup_status "setup_attempted" then
         t_id ← date_now 2;
         setup_result ← lift (get setupData "setup_result");
         t_stamp ← date_now 3;
         setMessages (append
           {| m_id := (inject_Z t_id + (1 # 2))%Q;
              m_type := "system";
              m_content := "AI-System wird automatisch eingerichtet... Status: " +:+
                           ToString (js_or (get_opt setup_result "status") (JStr "In Bearbeitung"));
              m_timestamp := t_stamp;
              m_status := if is_str (get_opt setup_result "status") "success"
                          then "success" else "warning" |})
       else mret tt);
  t_default ← date_now 4;
  t_improve ← date_now 5;
  let endpoint := select_endpoint input in
  let requestData := select_requestData input t_default t_improve in
  response ← fetch (main_request endpoint requestData);
  data ← lift (json response);
  t_id ← date_now 6;
  t_stamp ← date_now 7;
  content ← lift (botContent endpoint (ok response) data);
  setMessages (append
    {| m_id := (inject_Z t_id + 1)%Q;
       m_type := "bot";
       m_content := content;
       m_timestamp := t_stamp;
       m_status := if ok response then "success" else "error" |}).

(** Lines 143-151: the [catch] clause. *)
Definition catch_clause (error_message : string) : Async State unit :=
  t_id ← date_now 8;
  t_stamp ← date_now 9;
  setMessages (append
    {| m_id := (inject_Z t_id + 1)%Q;
       m_type := "bot";
       m_content := errorContent error_message;
       m_timestamp := t_stamp;
       m_status := "error" |}).

(** Lines 32-155. [render] holds the [inputValue] and [isLoading] the
    handler closed over. *)
Definition handleSendMessage (render : State) : Async State unit :=
  if str_falsy (trim (inputValue render)) || isLoading render then mret tt
  else
    t_id ← date_now 0;
    t_stamp ← date_now 1;
    _ ← setMessages (append
          {| m_id := inject_Z t_id;
             m_type := "user";
             m_content := inputValue render;
             m_timestamp := t_stamp;
             m_status := "sent" |});
    _ ← setInputValue EmptyString;
    _ ← setIsLoading true;
    try_finally
      (try_catch (try_body (inputValue render)) catch_clause)
      (setIsLoading false).

(** Line 294: the [disabled] attribute of the send button. *)
Definition send_disabled (render : State) : bool :=
  str_falsy (trim (inputValue render)) || isLoading render.

(** The quick-action buttons and the input box: [setInputValue]. *)
Definition typeInput (v : string) : Async State unit := setInputValue v.

End Handler.

End ChatInterface.

(** ** The browser's interval timers *)

Module Browser.

(** The functions the dashboard hands to [setInterval]. *)
Inductive Callback : Type := fetchSystemData_cb | fetchFlowiseData_cb.

#[global] Instance callback_eq_dec : EqDecision Callback.
Proof. solve_decision. Defined.

(** A registered interval: what to call, every how many milliseconds, and
    when it was registered. *)
Record Interval : Type := {
  callback : Callback;
  delay : Z;
  started : Z;
}.

(** The timer table of the page: live intervals by id, and the next id. *)
Record Timers : Type := {
  next_id : nat;
  active : gmap nat Interval;
}.

Definition no_timers : Timers := {| next_id := 1; active := ∅ |}.

(** [setInterval(cb, ms)] at time [now]: a fresh id, returned to the caller. *)
Definition setInterval (cb : Callback) (ms now : Z) (t : Timers) : nat * Timers :=
  (next_id t,
   {| next_id := S (next_id t);
      active := <[next_id t := {| callback := cb; delay := ms; started := now |}]> (active t) |}).

(** [clearInterval(id)] *)
Definition clearInterval (id : nat) (t : Timers) : Timers :=
  {| next_id := next_id t; active := delete id (active t) |}.

(** An interval calls its function whenever a whole positive number of
    delays has passed since it was registered. *)
Definition fires (i : Interval) (t : Z) : bool :=
  (started i <? t)%Z && ((t - started i) mod delay i =? 0)%Z.

(** The functions the page calls at time [t]. *)
Definition due (tm : Timers) (t : Z) : list Callback :=
  callback <$> filter (λ i, fires i t = true) (snd <$> map_to_list (active tm)).

End Browser.

(** ** SystemMonitor.jsx *)

Module SystemMonitor.
Import JS Effects.

(** One point of the performance chart. *)
Record Sample : Type := {
  time : string;
  cpu : JsVal;
  memory : JsVal;
  learning_rate : JsVal;
  timestamp : Z;
}.

(** The [systemData] object. Its [services] field is a reference, the index
    of the object in the store of the component: the handler copies
    [systemData] shallowly and then assigns into the [services] object the
    copy shares with the original. *)
Record SystemData : Type := {
  status : JsVal;
  metrics : JsVal;
  learning : JsVal;
  services : nat;
  performance : list Sample;
}.

(** The store of [services] objects and the two [useState] cells. *)
Record State : Type := {
  heap : list (gmap string JsVal);
  systemData : SystemData;
  lastUpdate : Z;
}.

(** Lines 39-45: the object of the first render. *)
Definition initialSystemData : SystemData :=
  {| status := JStr "loading";
     metrics := JObj ∅;
     learning := JObj ∅;
     services := 0;
     performance := [] |}.

Definition initial (t0 : Z) : State :=
  {| heap := [∅]; systemData := initialSystemData; lastUpdate := t0 |}.

(** [o.k = v] on the object at [l]. *)
Definition assign (l : nat) (k : string) (v : JsVal) : Async State unit :=
  emit (Update (λ s, {| heap := alter (<[k := v]>) l (heap s);
                        systemData := systemData s;
                        lastUpdate := lastUpdate s |})).

(** [setSystemData(newData)] *)
Definition setSystemData (newData : SystemData) : Async State unit :=
  emit (Update (λ s, {| heap := heap s;
                        systemData := newData;
                        lastUpdate := lastUpdate s |})).

Definition all_offline : gmap string JsVal :=
  <["backend" := JStr "offline"]>
    (<["learning" := JStr "offline"]>
      (<["flowise" := JStr "offline"]> ∅)).

(** Lines 103-107: [setSystemData(prev => ({...prev, status: 'error',
    services: {...}}))], the object literal being a new object. *)
Definition setSystemData_error : Async State unit :=
  emit (Update (λ s, {| heap := heap s ++ [all_offline];
                        systemData :=
                          {| status := JStr "error";
                             metrics := metrics (systemData s);
                             learning := learning (systemData s);
                             services := length (heap s);
                             performance := performance (systemData s) |};
                        lastUpdate := lastUpdate s |})).

Definition setLastUpdate (now : Z) : Async State unit :=
  emit (Update (λ s, {| heap := heap s;
                        systemData := systemData s;
                        lastUpdate := now |})).

Definition status_request : Request :=
  {| url := "http://localhost:5000/api/ai/status"; method := GET; headers := []; body := None |}.
Definition learning_request : Request :=
  {| url := "http://localhost:5000/api/learning/status"; method := GET; headers := []; body := None |}.
Definition flowise_request : Request :=
  {| url := "http://localhost:5000/api/flowise/config"; method := GET; headers := []; body := None |}.

(** One entry of [Promise.allSettled]: the request is issued and its
    outcome kept, whichever it is. *)
Definition settled (r : Request) : Async State FetchOutcome :=
  λ w, ([Fetch r], Normal (net w r)).

(** [res.status === 'fulfilled' && res.value.ok] *)
Definition fulfilled_ok (res : FetchOutcome) : bool :=
  match res with
  | Fulfilled value => ok value
  | Rejected _ => false
  end.

(** [res.value.json()], read only under [fulfilled_ok]. *)
Definition value_json (res : FetchOutcome) : Completion JsVal :=
  match res with
  | Fulfilled value => json value
  | Rejected reason => Throw reason
  end.

(** [.slice(-n)] *)
Definition slice_last {A} (n : nat) (l : list A) : list A :=
  drop (length l - n) l.

Section Handler.
Context `{Host}.

(** Lines 48-109. [captured] is the [systemData] of the render that created
    this [fetchSystemData]. *)
Definition try_body (captured : SystemData) : Async State unit :=
  statusRes ← settled status_request;
  learningRes ← settled learning_request;
  flowiseRes ← settled flowise_request;
  (* Process AI status *)
  '(newStatus, newMetrics) ←
    (if fulfilled_ok statusRes then
       statusData ← lift (value_json statusRes);
       st ← lift (get statusData "status");
       me ← lift (get statusData "metrics");
       _ ← assign (services captured) "backend" (JStr "online");
       mret (js_or st (JStr "active"), js_or me (JObj ∅))
     else
       _ ← assign (services captured) "backend" (JStr "offline");
       mret (status captured, metrics captured));
  (* Process learning status *)
  newLearning ←
    (if fulfilled_ok learningRes then
       learningData ← lift (value_json learningRes);
       li ← lift (get learningData "learning_insights");
       _ ← assign (services captured) "learning" (JStr "online");
       mret (js_or li (JObj ∅))
     else
       _ ← assign (services captured) "learning" (JStr "offline");
       mret (learning captured));
  (* Process Flowise status *)
  _ ← (if fulfilled_ok flowiseRes then
         flowiseData ← lift (value_json flowiseRes);
         _ ← assign (services captured) "flowise" (JStr "online");
         ep ← lift (get flowiseData "flowise_endpoint");
         assign (services captured) "flowise_endpoint" ep
       else
         assign (services captured) "flowise" (JStr "offline"));
  (* Generate mock performance data for visualization *)
  now ← date_now 0;
  r_cpu ← math_random 0;
  r_memory ← math_random 1;
  success_rate ← lift (get newLearning "success_rate");
  r_rate ← math_random 2;
  let newPerformancePoint :=
    {| time := toLocaleTimeString now;
       cpu := times100 (JNum r_cpu);
       memory := times100 (JNum r_memory);
       learning_rate := if truthy success_rate then times100 success_rate
                        else times100 (JNum r_rate);
       timestamp := now |} in
  _ ← setSystemData
        {| status := newStatus;
           metrics := newMetrics;
           learning := newLearning;
           services := services captured;
           performance := slice_last 20 (performance captured ++ [newPerformancePoint]) |};
  setLastUpdate now.

Definition catch_clause (error_message : string) : Async State unit :=
  _ ← emit (ConsoleError "Failed to fetch system data:" error_message);
  setSystemData_error.

Definition fetchSystemData (captured : SystemData) : Async State unit :=
  try_catch (try_body captured) catch_clause.

End Handler.

(** Lines 111-115: the effect of the first render registers the interval and
    returns the cleanup, which holds the interval's id. *)
Definition useEffect_mount (now : Z) (t : Browser.Timers) : nat * Browser.Timers :=
  Browser.setInterval Browser.fetchSystemData_cb 5000 now t.

Definition useEffect_cleanup (interval : nat) (t : Browser.Timers) : Browser.Timers :=
  Browser.clearInterval interval t.

(** Lines 257-280: the four [ServiceStatus] rows, by name and the [status]
    their badge prints. *)
Definition service_badges (s : State) : list (string * JsVal) :=
  let svc := default ∅ (heap s !! services (systemData s)) in
  let field k := default JUndefined (svc !! k) in
  [ ("Backend API", js_or (field "backend") (JStr "offline"));
    ("Lern-Engine", js_or (field "learning") (JStr "offline"));
    ("Flowise", js_or (field "flowise") (JStr "offline"));
    ("LLM Service", JStr "checking") ].

(** What calls [fetchSystemData]: the effect of the first render and the
    interval it registers, both holding the function of the first render;
    and the refresh button, holding the function of the current render. *)
Inductive Event : Type :=
  | Timer (w : World)
  | Refresh (w : World).

Section Component.
Context `{Host}.

Definition step (s : State) (e : Event) : State :=
  match e with
  | Timer w => apply_updates (fst (fetchSystemData initialSystemData w)) s
  | Refresh w => apply_updates (fst (fetchSystemData (systemData s) w)) s
  end.

Definition run (s : State) (es : list Event) : State := foldl step s es.

End Component.

End SystemMonitor.

(** ** FlowiseManager.jsx *)

Module FlowiseManager.
Import JS Effects.

(** The [useState] cells. An updater that throws does so when React runs
    it, outside the handler's [try]; no error boundary exists, and the
    failure is kept in [render_error]. *)
Record State : Type := {
  chatflows : JsVal;
  loading : bool;
  flowiseConfig : JsVal;
  newChatflow : JsVal;
  testMessage : string;
  testResults : gmap string JsVal;
  render_error : option string;
}.

Definition obj (l : list (string * JsVal)) : JsVal := JObj (list_to_map l).

Definition emptyChatflow : JsVal :=
  obj [("name", JStr EmptyString); ("description", JStr EmptyString);
       ("type", JStr "conversational")].

(** Lines 364-377. *)
Definition initial : State :=
  {| chatflows := JArr [];
     loading := true;
     flowiseConfig := obj [("flowise_endpoint", JStr "http://localhost:3000");
                           ("llm_endpoint", JStr "http://localhost:11434");
                           ("status", JStr "checking")];
     newChatflow := emptyChatflow;
     testMessage := EmptyString;
     testResults := ∅;
     render_error := None |}.

Definition with_chatflows (v : JsVal) (s : State) : State :=
  {| chatflows := v; loading := loading s; flowiseConfig := flowiseConfig s;
     newChatflow := newChatflow s; testMessage := testMessage s;
     testResults := testResults s; render_error := render_error s |}.

Definition with_loading (b : bool) (s : State) : State :=
  {| chatflows := chatflows s; loading := b; flowiseConfig := flowiseConfig s;
     newChatflow := newChatflow s; testMessage := testMessage s;
     testResults := testResults s; render_error := render_error s |}.

Definition with_flowiseConfig (v : JsVal) (s : State) : State :=
  {| chatflows := chatflows s; loading := loading s; flowiseConfig := v;
     newChatflow := newChatflow s; testMessage := testMessage s;
     testResults := testResults s; render_error := render_error s |}.

Definition with_newChatflow (v : JsVal) (s : State) : State :=
  {| chatflows := chatflows s; loading := loading s; flowiseConfig := flowiseConfig s;
     newChatflow := v; testMessage := testMessage s;
     testResults := testResults s; render_error := render_error s |}.

Definition with_testResults (v : gmap string JsVal) (s : State) : State :=
  {| chatflows := chatflows s; loading := loading s; flowiseConfig := flowiseConfig s;
     newChatflow := newChatflow s; testMessage := testMessage s;
     testResults := v; render_error := render_error s |}.

Definition with_render_error (e : string) (s : State) : State :=
  {| chatflows := chatflows s; loading := loading s; flowiseConfig := flowiseConfig s;
     newChatflow := newChatflow s; testMessage := testMessage s;
     testResults := testResults s; render_error := Some e |}.

(** Running an updater whose body may throw. *)
Definition updater (f : State → Completion State) : State → State :=
  λ s, match f s with
       | Normal s' => s'
       | Throw e => with_render_error e s
       end.

Definition setLoading (b : bool) : Async State unit := emit (Update (with_loading b)).
Definition setChatflows (v : JsVal) : Async State unit := emit (Update (with_chatflows v)).
Definition setFlowiseConfig (v : JsVal) : Async State unit :=
  emit (Update (with_flowiseConfig v)).
Definition setNewChatflow (v : JsVal) : Async State unit :=
  emit (Update (with_newChatflow v)).

Definition cbind {A B} (c : Completion A) (k : A → Completion B) : Completion B :=
  match c with
  | Normal a => k a
  | Throw e => Throw e
  end.

Definition base : string := "http://localhost:5000/api/flowise".

Definition config_request : Request :=
  {| url := base +:+ "/config"; method := GET; headers := []; body := None |}.
Definition chatflows_request : Request :=
  {| url := base +:+ "/chatflows"; method := GET; headers := []; body := None |}.
Definition test_connection_request : Request :=
  {| url := base +:+ "/test-connection"; method := POST; headers := []; body := None |}.
Definition auto_optimize_request : Request :=
  {| url := base +:+ "/auto-optimize"; method := POST; headers := []; body := None |}.

(** ['online'] or ['offline'] from [v.status === 'success']. *)
Definition online_if_success (v : JsVal) : Completion JsVal :=
  cbind (get v "status") (λ st,
  Normal (JStr (if is_str st "success" then "online" else "offline"))).

(** Lines 404-408: the updater of the connection test. *)
Definition connection_updater (testData : JsVal) : State → State :=
  updater (λ s,
    cbind (get testData "flowise") (λ fl,
    cbind (online_if_success fl) (λ st,
    cbind (get testData "llm") (λ llm,
    cbind (online_if_success llm) (λ llm_st,
    Normal (with_flowiseConfig
              (JObj (<["llm_status" := llm_st]>
                       (<["status" := st]> (spread (flowiseConfig s))))) s)))))).

(** Line 412. *)
Definition offline_updater : State → State :=
  λ s, with_flowiseConfig (JObj (<["status" := JStr "offline"]> (spread (flowiseConfig s)))) s.

Section Handlers.
Context `{Host}.

(** Lines 379-416. *)
Definition fetchFlowiseData : Async State unit :=
  _ ← setLoading true;
  try_finally
    (try_catch
       (configRes ← fetch config_request;
        _ ← (if ok configRes then
               configData ← lift (json configRes);
               setFlowiseConfig configData
             else mret tt);
        chatflowsRes ← fetch chatflows_request;
        _ ← (if ok chatflowsRes then
               chatflowsData ← lift (json chatflowsRes);
               d ← lift (get chatflowsData "data");
               setChatflows (js_or d (JArr []))
             else setChatflows (JArr []));
        testRes ← fetch test_connection_request;
        if ok testRes then
          testData ← lift (json testRes);
          emit (Update (connection_updater testData))
        else mret tt)
       (λ error,
          _ ← emit (ConsoleError "Failed to fetch Flowise data:" error);
          emit (Update offline_updater)))
    (setLoading false).

(** Lines 426-451: the request that creates a chatflow. *)
Definition create_request (render : State) : Completion Request :=
  cbind (get (newChatflow render) "name") (λ name,
  cbind (get (newChatflow render) "description") (λ description,
  Normal
    {| url := base +:+ "/chatflows";
       method := POST;
       headers := json_headers;
       body := Some (JSON_stringify (obj
         [("name", name);
          ("description", description);
          ("flowData", obj
             [("nodes", JArr
                 [obj [("id", JStr "llm-1");
                       ("type", JStr "llm");
                       ("position", obj [("x", JNum 100); ("y", JNum 100)]);
                       ("data", obj
                          [("label", JStr "LLM Node");
                           ("name", JStr "chatOpenAI");
                           ("inputs", obj [("modelName", JStr "gpt-3.5-turbo");
                                           ("temperature", JNum (7 # 10))])])]]);
              ("edges", JArr [])])])) |})).

(** Lines 424-460. *)
Definition handleCreateChatflow (render : State) : Async State unit :=
  try_catch
    (r ← lift (create_request render);
     response ← fetch r;
     if ok response then
       _ ← setNewChatflow emptyChatflow;
       fetchFlowiseData
     else mret tt)
    (λ error, emit (ConsoleError "Failed to create chatflow:" error)).

Definition predict_request (chatflowId : JsVal) (message : string) (now : Z) : Request :=
  {| url := base +:+ "/chatflows/" +:+ ToString chatflowId +:+ "/predict";
     method := POST;
     headers := json_headers;
     body := Some (JSON_stringify (obj
       [("message", JStr message);
        ("session_id", JStr ("test_" +:+ ToString (JNum (inject_Z now))))])) |}.

(** Lines 476-483: the updater that files the result of a test; it reads
    the clock when it runs. *)
Definition result_updater (chatflowId : JsVal) (response_ok : bool) (result : JsVal)
    (now : Z) : State → State :=
  updater (λ s,
    cbind (get result "data") (λ data,
    cbind (get result "error") (λ err,
    Normal (with_testResults
              (<[ToString chatflowId :=
                   obj [("status", JStr (if response_ok then "success" else "error"));
                        ("response", js_or (js_or data err) (JStr "No response"));
                        ("timestamp", JStr (toLocaleTimeString now))]]>
                 (testResults s)) s)))).

(** Lines 485-492. *)
Definition failure_updater (chatflowId : JsVal) (error_message : string) (now : Z)
    : State → State :=
  λ s, with_testResults
         (<[ToString chatflowId :=
              obj [("status", JStr "error");
                   ("response", JStr error_message);
                   ("timestamp", JStr (toLocaleTimeString now))]]>
            (testResults s)) s.

(** Lines 462-494. *)
Definition handleTestChatflow (render : State) (chatflowId : JsVal) : Async State unit :=
  if str_falsy (trim (testMessage render)) then mret tt
  else
    try_catch
      (t_session ← date_now 0;
       response ← fetch (predict_request chatflowId (testMessage render) t_session);
       result ← lift (json response);
       t_result ← date_now 1;
       emit (Update (result_updater chatflowId (ok response) result t_result)))
      (λ error,
         t_error ← date_now 2;
         emit (Update (failure_updater chatflowId error t_error))).

Definition optimize_request (chatflowId : JsVal) : Request :=
  {| url := base +:+ "/chatflows/" +:+ ToString chatflowId +:+ "/optimize";
     method := POST; headers := []; body := None |}.

(** Lines 496-511. *)
Definition handleOptimizeChatflow (chatflowId : JsVal) : Async State unit :=
  try_catch
    (response ← fetch (optimize_request chatflowId);
     if ok response then
       result ← lift (json response);
       optimization ← lift (get result "optimization");
       _ ← emit (Alert ("Optimierung abgeschlossen: " +:+ JSON_stringify_indent optimization));
       fetchFlowiseData
     else mret tt)
    (λ error, emit (ConsoleError "Failed to optimize chatflow:" error)).

(** Lines 513-527. *)
Definition handleAutoOptimize : Async State unit :=
  try_catch
    (response ← fetch auto_optimize_request;
     if ok response then
       result ← lift (json response);
       results ← lift (get result "results");
       len ← lift (get results "length");
       _ ← emit (Alert ("Auto-Optimierung abgeschlossen: " +:+ ToString len +:+
                        " Chatflows verarbeitet"));
       fetchFlowiseData
     else mret tt)
    (λ error, emit (ConsoleError "Failed to auto-optimize:" error)).

End Handlers.

(** Lines 418-422. *)
Definition useEffect_mount (now : Z) (t : Browser.Timers) : nat * Browser.Timers :=
  Browser.setInterval Browser.fetchFlowiseData_cb 30000 now t.

Definition useEffect_cleanup (interval : nat) (t : Browser.Timers) : Browser.Timers :=
  Browser.clearInterval interval t.

(** [v === 0] *)
Definition is_zero (v : JsVal) : bool :=
  match v with
  | JNum q => (Qnum q =? 0)%Z
  | _ => false
  end.

(** Lines 750-752: the callback of [chatflows.map] reads the [id] of each
    chatflow for the key of its card. *)
Fixpoint card_keys (items : list JsVal) : Completion (list JsVal) :=
  match items with
  | [] => Normal []
  | chatflow :: rest =>
      cbind (get chatflow "id") (λ id,
      cbind (card_keys rest) (λ ids,
      Normal (id :: ids)))
  end.

(** Lines 687-756: the card of the chatflows, as far as the component
    function evaluates it: the count, the two fields of the dialog, and,
    unless the count is [0], [chatflows.map], which only an array has. *)
Definition chatflow_keys (s : State) : Completion (list JsVal) :=
  cbind (get (chatflows s) "length") (λ len,
  cbind (get (newChatflow s) "name") (λ _,
  cbind (get (newChatflow s) "description") (λ _,
  if is_zero len then Normal []
  else match chatflows s with
       | JArr items => card_keys items
       | _ => Throw "chatflows.map is not a function"
       end))).

(** Lines 625-781: the status badges of a render, by label and printed
    text; none while [loading] shows the spinner card instead, and none
    when the component function throws before it returns. *)
Definition status_badges (s : State) : Completion (list (string * JsVal)) :=
  if loading s then Normal []
  else
    cbind (get (flowiseConfig s) "status") (λ st,
    cbind (get (flowiseConfig s) "llm_status") (λ llm,
    cbind (chatflow_keys s) (λ _,
    Normal [ ("Flowise-Status", st);
             ("Flowise Endpoint", st);
             ("LLM Endpoint", js_or llm (JStr "Prüfung...")) ]))).

End FlowiseManager.

(** ** App.jsx *)

Module App.
Import JS Effects.

Record State : Type := {
  systemStatus : string;
  sidebarOpen : bool;
  activeTab : string;
}.

(** Lines 16-18. *)
Definition initial : State :=
  {| systemStatus := "loading"; sidebarOpen := false; activeTab := "dashboard" |}.

Definition setSystemStatus (v : string) : Async State unit :=
  emit (Update (λ s, {| systemStatus := v;
                        sidebarOpen := sidebarOpen s;
                        activeTab := activeTab s |})).

Definition status_request : Request :=
  {| url := "http://localhost:5000/api/ai/status"; method := GET; headers := []; body := None |}.

(** Lines 20-25: the status check of the first render. *)
Definition useEffect_mount : Async State unit :=
  try_catch
    (res ← fetch status_request;
     if ok res then setSystemStatus "active" else setSystemStatus "error")
    (λ _, setSystemStatus "error").

(** The components [renderContent] chooses from. *)
Inductive Panel : Type :=
  | SystemMonitor | ChatInterface | FlowiseManager
  | EthicsPanel | SecurityPanel | ImprovementPanel | ServicesPanel.

#[global] Instance panel_eq_dec : EqDecision Panel.
Proof. solve_decision. Defined.

(** [renderContent], by the value of [activeTab]. *)
Definition renderContent (tab : string) : Panel :=
  if String.eqb tab "dashboard" then SystemMonitor
  else if String.eqb tab "chat" then ChatInterface
  else if String.eqb tab "flowise" then FlowiseManager
  else if String.eqb tab "ethics" then EthicsPanel
  else if String.eqb tab "security" then SecurityPanel
  else if String.eqb tab "improvement" then ImprovementPanel
  else if String.eqb tab "services" then ServicesPanel
  else SystemMonitor.

(** The page: the timer table, the panel on screen, and the cleanup React
    holds for that panel's effect (the id of its interval, for the two
    panels that poll). *)
Record Page : Type := {
  timers : Browser.Timers;
  panel : Panel;
  cleanup : option nat;
}.

(** Mounting a panel runs its effect. *)
Definition mount (p : Panel) (now : Z) (t : Browser.Timers) : option nat * Browser.Timers :=
  match p with
  | SystemMonitor => let '(id, t') := SystemMonitor.useEffect_mount now t in (Some id, t')
  | FlowiseManager => let '(id, t') := FlowiseManager.useEffect_mount now t in (Some id, t')
  | _ => (None, t)
  end.

(** Unmounting a panel runs the cleanup its effect returned. *)
Definition unmount (p : Panel) (c : option nat) (t : Browser.Timers) : Browser.Timers :=
  match p, c with
  | SystemMonitor, Some id => SystemMonitor.useEffect_cleanup id t
  | FlowiseManager, Some id => FlowiseManager.useEffect_cleanup id t
  | _, _ => t
  end.

(** The first render shows the dashboard tab. *)
Definition open_page (now : Z) : Page :=
  let '(c, t) := mount (renderContent (activeTab initial)) now Browser.no_timers in
  {| timers := t; panel := renderContent (activeTab initial); cleanup := c |}.

(** [setActiveTab(tab)] at time [now]: a different component replaces the
    one on screen, which is unmounted first. *)
Definition setActiveTab (tab : string) (now : Z) (pg : Page) : Page :=
  if decide (renderContent tab = panel pg) then pg
  else
    let t1 := unmount (panel pg) (cleanup pg) (timers pg) in
    let '(c, t2) := mount (renderContent tab) now t1 in
    {| timers := t2; panel := renderContent tab; cleanup := c |}.

(** Closing the page unmounts the panel on screen. *)
Definition close_page (pg : Page) : Browser.Timers :=
  unmount (panel pg) (cleanup pg) (timers pg).

Definition navigate (pg : Page) (clicks : list (string * Z)) : Page :=
  foldl (λ p c, setActiveTab c.1 c.2 p) pg clicks.

End App.

(** ** scripts/start.sh *)

Module StartScript.

(** The commands the script is made of. *)
#[warnings="-register-all"]
Inductive Cmd : Type :=
  | echo (line : string)
  | run (argv : list string)
  | exit (code : nat)
  | if_not_file (path : string) (body : list Cmd).

(** What the script meets: which files exist, and the exit status of each
    external command. *)
Record Env : Type := {
  file_exists : string → bool;
  exit_status : list string → nat;
}.

Inductive Event : Type :=
  | Printed (line : string)
  | Ran (argv : list string).

(** One command under [set -e]: its events, and the status the script
    exits with if the command ends it. The test of an [if] never does. *)
Fixpoint exec_cmd (env : Env) (c : Cmd) : list Event * option nat :=
  match c with
  | echo line => ([Printed line], None)
  | run argv =>
      ([Ran argv],
       if exit_status env argv =? 0 then None else Some (exit_status env argv))
  | exit code => ([], Some code)
  | if_not_file path body =>
      if file_exists env path then ([], None)
      else
        (fix exec_body (l : list Cmd) : list Event * option nat :=
           match l with
           | [] => ([], None)
           | c :: rest =>
               match exec_cmd env c with
               | (t, Some code) => (t, Some code)
               | (t, None) => let '(t', r) := exec_body rest in (t ++ t', r)
               end
           end) body
  end.

Fixpoint exec (env : Env) (script : list Cmd) : list Event * option nat :=
  match script with
  | [] => ([], None)
  | c :: rest =>
      match exec_cmd env c with
      | (t, Some code) => (t, Some code)
      | (t, None) => let '(t', r) := exec env rest in (t ++ t', r)
      end
  end.

(** The events of a whole run and its exit status: [0] when the last
    command was reached and succeeded. *)
Definition run_script (env : Env) (script : list Cmd) : list Event * nat :=
  let '(t, r) := exec env script in (t, default 0 r).

Definition GREEN : string := "\033[0;32m".
Definition BLUE : string := "\033[0;34m".
Definition NC : string := "\033[0m".

(** [echo -e "${BLUE}[INFO]${NC} $1"], the text as written. *)
Definition print_status (msg : string) : Cmd :=
  echo (BLUE +:+ "[INFO]" +:+ NC +:+ " " +:+ msg).

Definition print_success (msg : string) : Cmd :=
  echo (GREEN +:+ "[SUCCESS]" +:+ NC +:+ " " +:+ msg).

Definition docker_compose (args : list string) : list string := "docker-compose" :: args.

(** The commands and the line the claims are about. *)
Definition up : list string := docker_compose ["up"; "-d"].
Definition sleep : list string := ["sleep"; "15"].
Definition ps : list string := docker_compose ["ps"].
Definition access_point : string := "Access the system at: http://localhost".

Definition start_sh : list Cmd :=
  [ echo "🚀 Starting KI Self Sustain System...";
    if_not_file "docker-compose.yaml"
      [ echo "Error: docker-compose.yaml not found!";
        exit 1 ];
    print_status "Starting all services...";
    run up;
    print_status "Waiting for services to initialize...";
    run sleep;
    print_status "Service status:";
    run ps;
    print_success "KI Self Sustain System started!";
    echo EmptyString;
    echo access_point;
    echo "View logs with: docker-compose logs -f";
    echo "Stop with: docker-compose down" ].

(** The external commands of a run, in order. *)
Definition commands (t : list Event) : list (list string) :=
  omap (λ e, match e with Ran argv => Some argv | _ => None end) t.

(** The lines of a run, in order. *)
Definition output (t : list Event) : list string :=
  omap (λ e, match e with Printed l => Some l | _ => None end) t.

Definition is_docker_compose (argv : list string) : bool :=
  match argv with
  | c :: _ => String.eqb c "docker-compose"
  | [] => false
  end.

End StartScript.

(** ** A host to run the handlers on *)

Module Demo.
Import JS Effects.

Definition show_Z (z : Z) : string := NilZero.string_of_int (Z.to_int z).

(** Integers print in decimal, other rationals as a fraction; containers
    print as JavaScript prints a plain object. *)
Definition show (v : JsVal) : string :=
  match v with
  | JUndefined => "undefined"
  | JNull => "null"
  | JBool b => if b then "true" else "false"
  | JNum q => if Pos.eqb (Qden q) 1 then show_Z (Qnum q)
              else show_Z (Qnum q) +:+ "/" +:+ show_Z (Zpos (Qden q))
  | JStr s => s
  | JArr _ | JObj _ => "[object Object]"
  end.

#[global] Instance host : Host :=
  {| ToString := show;
     JSON_stringify := show;
     JSON_stringify_indent := show;
     toISOString := show_Z;
     toLocaleTimeString := show_Z;
     times100 := λ v, match v with
                      | JNum q => JNum (Qred (q * 100))
                      | _ => JUndefined
                      end |}.

Definition response (is_ok : bool) (data : JsVal) : FetchOutcome :=
  Fulfilled {| ok := is_ok; json := Normal data |}.

(** A world where every request is answered alike. *)
Definition world (answer : FetchOutcome) : World :=
  {| net := λ _, answer; clock := λ i, (1000 + Z.of_nat i)%Z; random := λ _, 1 # 2 |}.

(** The same answers, five seconds later. *)
Definition later (w : World) : World :=
  {| net := net w; clock := λ i, (clock w i + 5000)%Z; random := random w |}.

(** The backend answers, the learning engine is unreachable, and Flowise
    answers with a server error. *)
Definition mixed_world : World :=
  {| net := λ r,
       if String.eqb (url r) "http://localhost:5000/api/ai/status"
       then response true (JObj {[ "status" := JStr "active" ]})
       else if String.eqb (url r) "http://localhost:5000/api/learning/status"
       then Rejected "Failed to fetch"
       else response false JNull;
     clock := λ i, (1000 + Z.of_nat i)%Z;
     random := λ _, 1 # 2 |}.

(** No compose file in the working directory. *)
Definition missing_file : StartScript.Env :=
  {| StartScript.file_exists := λ _, false; StartScript.exit_status := λ _, 0 |}.

(** The file is there and every command succeeds. *)
Definition all_well : StartScript.Env :=
  {| StartScript.file_exists := λ _, true; StartScript.exit_status := λ _, 0 |}.

(** The daemon is down: the file is there, [docker-compose up -d] fails. *)
Definition daemon_down : StartScript.Env :=
  {| StartScript.file_exists := λ _, true;
     StartScript.exit_status := λ argv, if decide (argv = StartScript.up) then 1 else 0 |}.

End Demo.

(** ** The specification's notions, and the invariants of the proofs *)

Module Spec.
Import JS Effects.

(** The characters that count as white space: the white space and line
    terminators of the language, in UTF-8. *)
Definition white_space : list string :=
  [ utf8 [9]; utf8 [10]; utf8 [11]; utf8 [12]; utf8 [13]; utf8 [32];
    utf8 [194; 160]; utf8 [225; 154; 128];
    utf8 [226; 128; 128]; utf8 [226; 128; 129]; utf8 [226; 128; 130];
    utf8 [226; 128; 131]; utf8 [226; 128; 132]; utf8 [226; 128; 133];
    utf8 [226; 128; 134]; utf8 [226; 128; 135]; utf8 [226; 128; 136];
    utf8 [226; 128; 137]; utf8 [226; 128; 138];
    utf8 [226; 128; 168]; utf8 [226; 128; 169]; utf8 [226; 128; 175];
    utf8 [226; 129; 159]; utf8 [227; 128; 128]; utf8 [239; 187; 191] ].

(** An input is whitespace-only when it is a sequence of such characters
    (the empty input is). *)
Definition whitespace_only (s : string) : Prop :=
  ∃ chars, Forall (λ c, c ∈ white_space) chars ∧ s = foldr String.append EmptyString chars.







(** Every byte, for the facts that are checked byte by byte. *)
Definition all_ascii : list ascii := ascii_of_nat <$> seq 0 256.





(** ['online'] for a call that succeeded, ['offline'] otherwise. *)
Definition mark (succeeded : bool) : JsVal :=
  JStr (if succeeded then "online" else "offline").

(** A message is an error bubble of the bot. *)
Definition is_bot_error (m : ChatInterface.Message) : bool :=
  String.eqb (ChatInterface.m_type m) "bot" && String.eqb (ChatInterface.m_status m) "error".

(** The operations of ChatInterface that set state. *)
Inductive ChatOperation : Type :=
  | SendMessage (render : ChatInterface.State)
  | TypeInput (v : string).

Definition chat_perform `{Host} (op : ChatOperation) : Async ChatInterface.State unit :=
  match op with
  | SendMessage render => ChatInterface.handleSendMessage render
  | TypeInput v => ChatInterface.typeInput v
  end.

(** An updater appends exactly one message to the list it is given. *)
Definition appends_one (f : ChatInterface.State → ChatInterface.State) : Prop :=
  ∃ m, ∀ s, ChatInterface.messages (f s) = ChatInterface.messages s ++ [m].

(** An updater leaves the message list as it is. *)
Definition keeps_messages (f : ChatInterface.State → ChatInterface.State) : Prop :=
  ∀ s, ChatInterface.messages (f s) = ChatInterface.messages s.

(** What the user and the network see of a run, whatever the component. *)
Record Observed : Type := {
  sent : list Request;
  dialogs : list string;
  logged : list (string * string);
}.

Definition observe {S A} (run : list (Effect S) * Completion A) : Observed :=
  {| sent := requests run.1; dialogs := alerts run.1; logged := console run.1 |}.

(** Every operation of the dashboard that talks to the network. *)
Inductive Operation : Type :=
  | AppMount
  | PollSystem (captured : SystemMonitor.SystemData)
  | PollFlowise
  | CreateChatflow (render : FlowiseManager.State)
  | TestChatflow (render : FlowiseManager.State) (chatflowId : JsVal)
  | OptimizeChatflow (chatflowId : JsVal)
  | AutoOptimize
  | SendChat (render : ChatInterface.State).

Definition perform `{Host} (op : Operation) (w : World) : Observed :=
  match op with
  | AppMount => observe (App.useEffect_mount w)
  | PollSystem captured => observe (SystemMonitor.fetchSystemData captured w)
  | PollFlowise => observe (FlowiseManager.fetchFlowiseData w)
  | CreateChatflow render => observe (FlowiseManager.handleCreateChatflow render w)
  | TestChatflow render chatflowId =>
      observe (FlowiseManager.handleTestChatflow render chatflowId w)
  | OptimizeChatflow chatflowId =>
      observe (FlowiseManager.handleOptimizeChatflow chatflowId w)
  | AutoOptimize => observe (FlowiseManager.handleAutoOptimize w)
  | SendChat render => observe (ChatInterface.handleSendMessage render w)
  end.

(** The request of an operation whose success opens a dialog, if it has one. *)
Definition dialog_request `{Host} (op : Operation) : option Request :=
  match op with
  | OptimizeChatflow chatflowId => Some (FlowiseManager.optimize_request chatflowId)
  | AutoOptimize => Some FlowiseManager.auto_optimize_request
  | _ => None
  end.

(** A request succeeded: its promise fulfilled with an ok response. *)
Definition succeeded (o : FetchOutcome) : bool :=
  match o with
  | Fulfilled value => ok value
  | Rejected _ => false
  end.

(** The values a polled service's field takes. *)
Definition two_valued (o : gmap string JsVal) (k : string) : Prop :=
  o !! k = None ∨ o !! k = Some (JStr "online") ∨ o !! k = Some (JStr "offline").

(** Every [services] object of the store holds, for the three polled
    services, nothing yet or one of the two states. *)
Definition services_two_valued (s : SystemMonitor.State) : Prop :=
  Forall (λ o, two_valued o "backend" ∧ two_valued o "learning" ∧ two_valued o "flowise")
         (SystemMonitor.heap s).

(** What an effect of the chat may do to the message list. *)
Definition append_or_keep (e : Effect ChatInterface.State) : Prop :=
  match e with
  | Update f => appends_one f ∨ keeps_messages f
  | _ => True
  end.

(** An updater keeps the store's [services] objects two-valued. *)
Definition keeps_two_valued (e : Effect SystemMonitor.State) : Prop :=
  match e with
  | Update f => ∀ s, services_two_valued s → services_two_valued (f s)
  | _ => True
  end.

(** An effect that is no dialog. *)
Definition silent {S} (e : Effect S) : Prop :=
  match e with Alert _ => False | _ => True end.

(** The three requests of the Flowise panel's poll. *)
Definition flowise_poll : list Request :=
  [FlowiseManager.config_request; FlowiseManager.chatflows_request;
   FlowiseManager.test_connection_request].

(** The page calls [cb], and nothing else, at the whole positive multiples
    of [ms] milliseconds after some start. *)
Definition polls_every (tm : Browser.Timers) (cb : Browser.Callback) (ms : Z) : Prop :=
  ∃ since, ∀ t cb',
    cb' ∈ Browser.due tm t ↔ cb' = cb ∧ ∃ k, (0 < k)%Z ∧ t = (since + k * ms)%Z.

(** The page calls nothing, ever. *)
Definition idle (tm : Browser.Timers) : Prop := ∀ t, Browser.due tm t = [].

(** What the timer table holds while a panel is on screen: the interval of
    the panel, if it polls, and nothing else. *)
Definition page_ok (pg : App.Page) : Prop :=
  match App.panel pg with
  | App.SystemMonitor =>
      ∃ id since,
        App.cleanup pg = Some id ∧
        Browser.active (App.timers pg) =
          {[ id := {| Browser.callback := Browser.fetchSystemData_cb;
                      Browser.delay := 5000; Browser.started := since |} ]}
  | App.FlowiseManager =>
      ∃ id since,
        App.cleanup pg = Some id ∧
        Browser.active (App.timers pg) =
          {[ id := {| Browser.callback := Browser.fetchFlowiseData_cb;
                      Browser.delay := 30000; Browser.started := since |} ]}
  | _ => Browser.active (App.timers pg) = ∅
  end.

End Spec.

(** ** What the components print *)

Module ChatView.
Import JS Effects ChatInterface.

(** The icons of lucide-react the chat uses for a message. *)
Inductive Icon : Type := UserIcon | BrainIcon | AlertTriangleIcon | CheckCircleIcon | BotIcon.

(** Lines 164-170. *)
Definition getMessageIcon (type status : string) : Icon :=
  if String.eqb type "user" then UserIcon
  else if String.eqb type "system" then BrainIcon
  else if String.eqb status "error" then AlertTriangleIcon
  else if String.eqb status "success" then CheckCircleIcon
  else BotIcon.

(** Lines 172-179. *)
Definition getStatusColor (status : string) : string :=
  if String.eqb status "success" then "text-green-600"
  else if String.eqb status "error" then "text-red-600"
  else if String.eqb status "warning" then "text-yellow-600"
  else "text-blue-600".

(** Lines 220-226: the classes of a message's bubble. *)
Definition bubbleClass (m : Message) : string :=
  if String.eqb (m_type m) "user" then "bg-blue-600 text-white"
  else if String.eqb (m_status m) "error" then "bg-red-50 border border-red-200"
  else "bg-gray-50 border border-gray-200".

(** Lines 233-237: the status badge is printed for a truthy status. *)
Definition showsStatusBadge (m : Message) : bool :=
  negb (String.eqb (m_status m) EmptyString).

(** The part of a keyboard event the handler reads. *)
Record KeyEvent : Type := {
  key : string;
  shiftKey : bool;
}.

(** What the user does to the component. *)
Inductive Event : Type :=
  | ClickSend
  | KeyPress (e : KeyEvent)
  | Input (v : string).

Section Component.
Context `{Host}.

(** Lines 157-162: whether the default action is prevented, and what runs. *)
Definition handleKeyPress (render : State) (e : KeyEvent) : bool * Async State unit :=
  if String.eqb (key e) "Enter" && negb (shiftKey e)
  then (true, handleSendMessage render)
  else (false, mret ()).

(** The handlers belong to the render of the current state. *)
Definition handler (s : State) (ev : Event) : Async State unit :=
  match ev with
  | ClickSend => handleSendMessage s
  | KeyPress e => (handleKeyPress s e).2
  | Input v => typeInput v
  end.

Definition step (s : State) (ev : Event * World) : State :=
  apply_updates (handler s ev.1 ev.2).1 s.

Definition run (s : State) (evs : list (Event * World)) : State := foldl step s evs.

End Component.

End ChatView.

Module MonitorView.
Import JS Effects SystemMonitor.

(** Lines 117-127: the class of the dot; [switch] compares with [===]. *)
Definition getStatusColor (status : JsVal) : string :=
  match status with
  | JStr s =>
      if String.eqb s "active" || String.eqb s "online" || String.eqb s "success"
      then "bg-green-500"
      else if String.eqb s "warning" then "bg-yellow-500"
      else if String.eqb s "error" || String.eqb s "offline" then "bg-red-500"
      else "bg-gray-500"
  | _ => "bg-gray-500"
  end.

(** Lines 129-139: the variant of the badge. *)
Definition getStatusBadge (status : JsVal) : string :=
  match status with
  | JStr s =>
      if String.eqb s "active" || String.eqb s "online" || String.eqb s "success"
      then "default"
      else if String.eqb s "warning" then "secondary"
      else if String.eqb s "error" || String.eqb s "offline" then "destructive"
      else "outline"
  | _ => "outline"
  end.

(** Lines 141-155: what a [ServiceStatus] row shows of its status. *)
Record Row : Type := {
  row_name : string;
  row_dot : string;
  row_variant : string;
  row_text : JsVal;
}.

Definition ServiceStatus (name : string) (status : JsVal) : Row :=
  {| row_name := name;
     row_dot := getStatusColor status;
     row_variant := getStatusBadge status;
     row_text := status |}.

(** Lines 257-280. *)
Definition service_rows (s : State) : list Row :=
  (λ b, ServiceStatus b.1 b.2) <$> service_badges s.

End MonitorView.

Module FlowiseView.
Import JS.

(** Lines 529-537 of FlowiseManager. *)
Definition getStatusColor (status : JsVal) : string :=
  match status with
  | JStr s =>
      if String.eqb s "online" || String.eqb s "success" then "text-green-600 bg-green-100"
      else if String.eqb s "offline" || String.eqb s "error" then "text-red-600 bg-red-100"
      else "text-yellow-600 bg-yellow-100"
  | _ => "text-yellow-600 bg-yellow-100"
  end.

End FlowiseView.

Module AppView.

(** Lines 229-246 of App: the variant and the text of the header badge. *)
Definition header_variant (systemStatus : string) : string :=
  if String.eqb systemStatus "active" then "default"
  else if String.eqb systemStatus "error" then "destructive"
  else "secondary".

Definition header_text (systemStatus : string) : string :=
  if String.eqb systemStatus "active" then "System Aktiv"
  else if String.eqb systemStatus "error" then "System Fehler"
  else "Lädt...".

End AppView.

(** ** scripts/setup.sh and scripts/stop.sh *)

Module Shell.

(** The tests the scripts branch on: [[ ! -f path ]], [! command -v name],
    and a command run for its status. *)
Inductive Cond : Type :=
  | not_file (path : string)
  | not_command (name : string)
  | succeeds (argv : list string).

#[warnings="-register-all"]
Inductive Cmd : Type :=
  | echo (line : string)
  | run (argv : list string)
  | exit (code : nat)
  | if_then_else (c : Cond) (then_ else_ : list Cmd)
  | or_else (argv : list string) (fallback : Cmd).

(** What a script meets: the files and commands that exist, and the exit
    status of each external command. *)
Record Env : Type := {
  file_exists : string → bool;
  command_exists : string → bool;
  exit_status : list string → nat;
}.

Inductive Event : Type :=
  | Printed (line : string)
  | Ran (argv : list string).

(** A test: the events of evaluating it, and its truth. *)
Definition test (env : Env) (c : Cond) : list Event * bool :=
  match c with
  | not_file path => ([], negb (file_exists env path))
  | not_command name => ([], negb (command_exists env name))
  | succeeds argv => ([Ran argv], exit_status env argv =? 0)
  end.

(** One command under [set -e]: its events, and the status the script
    exits with if the command ends it. A failing test and the failing left
    side of [||] do not end the script. *)
Fixpoint exec_cmd (env : Env) (c : Cmd) : list Event * option nat :=
  let exec_list :=
    fix exec_list (l : list Cmd) : list Event * option nat :=
      match l with
      | [] => ([], None)
      | c :: rest =>
          match exec_cmd env c with
          | (t, Some code) => (t, Some code)
          | (t, None) => let '(t', r) := exec_list rest in (t ++ t', r)
          end
      end in
  match c with
  | echo line => ([Printed line], None)
  | run argv =>
      ([Ran argv],
       if exit_status env argv =? 0 then None else Some (exit_status env argv))
  | exit code => ([], Some code)
  | if_then_else c then_ else_ =>
      let '(t, b) := test env c in
      let '(t', r) := exec_list (if b then then_ else else_) in
      (t ++ t', r)
  | or_else argv fallback =>
      if exit_status env argv =? 0 then ([Ran argv], None)
      else let '(t', r) := exec_cmd env fallback in (Ran argv :: t', r)
  end.

Fixpoint exec (env : Env) (script : list Cmd) : list Event * option nat :=
  match script with
  | [] => ([], None)
  | c :: rest =>
      match exec_cmd env c with
      | (t, Some code) => (t, Some code)
      | (t, None) => let '(t', r) := exec env rest in (t ++ t', r)
      end
  end.

(** The events of a whole run and its exit status. *)
Definition run_script (env : Env) (script : list Cmd) : list Event * nat :=
  let '(t, r) := exec env script in (t, default 0 r).

Definition commands (t : list Event) : list (list string) :=
  omap (λ e, match e with Ran argv => Some argv | _ => None end) t.

Definition output (t : list Event) : list string :=
  omap (λ e, match e with Printed l => Some l | _ => None end) t.

Definition RED : string := "\033[0;31m".
Definition GREEN : string := "\033[0;32m".
Definition YELLOW : string := "\033[1;33m".
Definition BLUE : string := "\033[0;34m".
Definition NC : string := "\033[0m".

Definition docker_compose (args : list string) : list string := "docker-compose" :: args.

End Shell.

Module StopScript.
Import Shell.

(** Lines 13-19 of stop.sh. *)
Definition print_status (msg : string) : Cmd :=
  echo (YELLOW +:+ "[INFO]" +:+ NC +:+ " " +:+ msg).

Definition print_success (msg : string) : Cmd :=
  echo (RED +:+ "[STOPPED]" +:+ NC +:+ " " +:+ msg).

Definition down : list string := docker_compose ["down"].

Definition stopped : string := RED +:+ "[STOPPED]" +:+ NC +:+ " KI Self Sustain System stopped!".

Definition stop_sh : list Cmd :=
  [ echo "🛑 Stopping KI Self Sustain System...";
    print_status "Stopping all services...";
    run down;
    print_success "KI Self Sustain System stopped!" ].

End StopScript.

Module SetupScript.
Import Shell.

(** Lines 16-30 of setup.sh. *)
Definition print_status (msg : string) : Cmd :=
  echo (BLUE +:+ "[INFO]" +:+ NC +:+ " " +:+ msg).
Definition print_success (msg : string) : Cmd :=
  echo (GREEN +:+ "[SUCCESS]" +:+ NC +:+ " " +:+ msg).
Definition print_warning (msg : string) : Cmd :=
  echo (YELLOW +:+ "[WARNING]" +:+ NC +:+ " " +:+ msg).
Definition print_error (msg : string) : Cmd :=
  echo (RED +:+ "[ERROR]" +:+ NC +:+ " " +:+ msg).

Definition mkdir_data : list string :=
  ["mkdir"; "-p"; "data"; "logs"; "backups"; "flowise_data"; "llm_models"; "redis_data"].
Definition mkdir_monitoring : list string :=
  ["mkdir"; "-p"; "monitoring/prometheus_data"; "monitoring/grafana_data"].
Definition mkdir_dev : list string := ["mkdir"; "-p"; "dev_scripts"].
Definition chmod_scripts : list string := ["chmod"; "+x"; "scripts/*.sh"].
Definition chmod_data : list string :=
  ["chmod"; "755"; "data"; "logs"; "backups"; "flowise_data"; "llm_models"; "redis_data"].
Definition chmod_monitoring : list string :=
  ["chmod"; "755"; "monitoring/prometheus_data"; "monitoring/grafana_data"].
Definition cp_env : list string := ["cp"; ".env"; ".env.local"].
Definition build : list string := docker_compose ["build"; "--no-cache"].
Definition up : list string := docker_compose ["up"; "-d"].
Definition sleep : list string := ["sleep"; "30"].
Definition curl_backend : list string := ["curl"; "-f"; "http://localhost:5000/api/ai/status"].
Definition curl_frontend : list string := ["curl"; "-f"; "http://localhost/"].
Definition curl_flowise : list string := ["curl"; "-f"; "http://localhost:3000"].
Definition pull_model : list string :=
  docker_compose ["exec"; "-T"; "llm_service"; "ollama"; "pull"; "llama3"].

Definition completed : string := GREEN +:+ "[SUCCESS]" +:+ NC +:+ " Setup completed!".

Definition setup_sh : list Cmd :=
  [ echo "🚀 Setting up KI Self Sustain System...";
    if_then_else (not_command "docker")
      [ print_error "Docker is not installed. Please install Docker first.";
        exit 1 ] [];
    if_then_else (not_command "docker-compose")
      [ print_error "Docker Compose is not installed. Please install Docker Compose first.";
        exit 1 ] [];
    print_status "Docker and Docker Compose are available";
    print_status "Creating necessary directories...";
    run mkdir_data;
    run mkdir_monitoring;
    run mkdir_dev;
    print_success "Directories created";
    print_status "Setting permissions...";
    run chmod_scripts;
    run chmod_data;
    run chmod_monitoring;
    print_success "Permissions set";
    if_then_else (not_file ".env.local")
      [ print_status "Creating local environment file...";
        run cp_env;
        print_warning "Please review and modify .env.local as needed" ] [];
    print_status "Building Docker images...";
    run build;
    print_status "Starting services...";
    run up;
    print_status "Waiting for services to be ready...";
    run sleep;
    print_status "Checking service health...";
    if_then_else (succeeds curl_backend)
      [ print_success "Backend service is healthy" ]
      [ print_warning "Backend service may not be ready yet" ];
    if_then_else (succeeds curl_frontend)
      [ print_success "Frontend service is healthy" ]
      [ print_warning "Frontend service may not be ready yet" ];
    if_then_else (succeeds curl_flowise)
      [ print_success "Flowise service is healthy" ]
      [ print_warning "Flowise service may not be ready yet" ];
    print_status "Setting up LLM model...";
    or_else pull_model (print_warning "Failed to pull LLM model");
    print_success "Setup completed!";
    echo EmptyString;
    echo "🎉 KI Self Sustain System is ready!";
    echo EmptyString;
    echo "Access points:";
    echo "  • Frontend (GUI): http://localhost";
    echo "  • Backend API: http://localhost:5000";
    echo "  • Flowise: http://localhost:3000 (admin/ki_self_sustain_2024)";
    echo "  • LLM Service: http://localhost:11434";
    echo "  • Prometheus: http://localhost:9090";
    echo "  • Grafana: http://localhost:3001 (admin/ki_self_sustain_2024)";
    echo EmptyString;
    echo "To stop the system: docker-compose down";
    echo "To view logs: docker-compose logs -f";
    echo "To restart: docker-compose restart";
    echo EmptyString;
    print_success "Happy AI controlling! 🤖" ].

(** The commands whose failure ends the script, in the order it runs them
    when [.env.local] is missing. *)
Definition hard_commands : list (list string) :=
  [mkdir_data; mkdir_monitoring; mkdir_dev; chmod_scripts; chmod_data; chmod_monitoring;
   cp_env; build; up; sleep].

(** The commands whose failure the script only warns about. *)
Definition soft_commands : list (list string) :=
  [curl_backend; curl_frontend; curl_flowise; pull_model].

End SetupScript.

(** ** More notions for the properties of the code *)

Module Notions.
Import JS Effects.

(** The kinds of message the chat makes: the user's, sent; the system's,
    a success or a warning; the bot's, a success or an error. *)
Definition well_kinded (m : ChatInterface.Message) : Prop :=
  (ChatInterface.m_type m = "user" ∧ ChatInterface.m_status m = "sent") ∨
  (ChatInterface.m_type m = "system" ∧
     (ChatInterface.m_status m = "success" ∨ ChatInterface.m_status m = "warning")) ∨
  (ChatInterface.m_type m = "bot" ∧
     (ChatInterface.m_status m = "success" ∨ ChatInterface.m_status m = "error")).



(** The three handlers of the Flowise panel that act on the backend. *)
Inductive Action : Type :=
  | Create (render : FlowiseManager.State)
  | Optimize (chatflowId : JsVal)
  | AutoOptimize.

Section WithHost.
Context `{Host}.

Definition act (a : Action) : Async FlowiseManager.State unit :=
  match a with
  | Create render => FlowiseManager.handleCreateChatflow render
  | Optimize chatflowId => FlowiseManager.handleOptimizeChatflow chatflowId
  | AutoOptimize => FlowiseManager.handleAutoOptimize
  end.

Definition action_request (a : Action) : Completion Request :=
  match a with
  | Create render => FlowiseManager.create_request render
  | Optimize chatflowId => Normal (FlowiseManager.optimize_request chatflowId)
  | AutoOptimize => Normal FlowiseManager.auto_optimize_request
  end.

End WithHost.

(** The line of start.sh that reports success. *)
Definition started : string :=
  StartScript.GREEN +:+ "[SUCCESS]" +:+ StartScript.NC +:+ " KI Self Sustain System started!".

(** The label of the handler's [console.error]. *)
Definition action_label (a : Action) : string :=
  match a with
  | Create _ => "Failed to create chatflow:"
  | Optimize _ => "Failed to optimize chatflow:"
  | AutoOptimize => "Failed to auto-optimize:"
  end.

End Notions.

(** ** Sample machines for the scripts *)

Module Samples.

(** Nothing is installed. *)
Definition no_docker : Shell.Env :=
  {| Shell.file_exists := λ _, false;
     Shell.command_exists := λ _, false;
     Shell.exit_status := λ _, 0 |}.

(** The tools are there, no [.env.local] yet, and the stack comes up but
    answers no health check and pulls no model. *)
Definition nothing_healthy : Shell.Env :=
  {| Shell.file_exists := λ _, false;
     Shell.command_exists := λ _, true;
     Shell.exit_status := λ argv,
       if bool_decide (argv ∈ SetupScript.soft_commands) then 7 else 0 |}.

(** A blank input: a tab, a no-break space, a space, an em space, an
    ideographic space, a byte order mark and a line feed. *)
Definition blank : string :=
  JS.utf8 [9; 194; 160; 32; 226; 128; 131; 227; 128; 128; 239; 187; 191; 10].

(** The compose file is there and the stack comes up, but
    [docker-compose ps] fails. *)
Definition ps_fails : StartScript.Env :=
  {| StartScript.file_exists := λ _, true;
     StartScript.exit_status := λ argv, if decide (argv = StartScript.ps) then 3 else 0 |}.

(** The answer of the connection test: Flowise is up, the LLM is not. *)
Definition half_up : JS.JsVal :=
  FlowiseManager.obj
    [("flowise", FlowiseManager.obj [("status", JS.JStr "success")]);
     ("llm", FlowiseManager.obj [("status", JS.JStr "error")])].

(** A backend that answers the chatflows request with [chatflows] under
    [data], and every other request with the answer of the connection
    test. *)
Definition flowise_backend (chatflows : JS.JsVal) : Effects.World :=
  {| Effects.net := λ r,
       if String.eqb (Effects.url r) (Effects.url FlowiseManager.chatflows_request)
       then Demo.response true (FlowiseManager.obj [("data", chatflows)])
       else Demo.response true half_up;
     Effects.clock := λ i, (1000 + Z.of_nat i)%Z;
     Effects.random := λ _, 1 # 2 |}.

End Samples.

(** ** Traces of the handler monad *)

Module EffectsFacts.
Import JS Effects.

Section Traces.
Context {S : Type}.

Variable P : Effect S → Prop.

Lemma leaves_ret {A} (a : A) : leaves P (mret a).
Proof. intros w. constructor. Qed.

Lemma leaves_bind {A B} (m : Async S A) (k : A → Async S B) :
  leaves P m → (∀ a, leaves P (k a)) → leaves P (m ≫= k).
Proof.
  intros Hm Hk w. unfold mbind, async_bind.
  specialize (Hm w). destruct (m w) as [t1 [a|e]]; simpl in *; [|done].
  specialize (Hk a w). destruct (k a w) as [t2 r]; simpl in *.
  by apply Forall_app.
Qed.

Lemma leaves_emit (e : Effect S) : P e → leaves P (emit e).
Proof. intros He w. by repeat constructor. Qed.

Lemma leaves_lift {A} (c : Completion A) : leaves P (lift c).
Proof. intros w. constructor. Qed.

Lemma leaves_date_now i : leaves P (date_now i).
Proof. intros w. constructor. Qed.

Lemma leaves_math_random i : leaves P (math_random i).
Proof. intros w. constructor. Qed.

Lemma leaves_fetch r : P (Fetch r) → leaves P (fetch r).
Proof. intros Hr w. by repeat constructor. Qed.

Lemma leaves_try_catch {A} (body : Async S A) handler :
  leaves P body → (∀ e, leaves P (handler e)) → leaves P (try_catch body handler).
Proof.
  intros Hb Hh w. unfold try_catch.
  specialize (Hb w). destruct (body w) as [t1 [a|e]]; simpl in *; [done|].
  specialize (Hh e w). destruct (handler e w) as [t2 r]; simpl in *.
  by apply Forall_app.
Qed.

Lemma leaves_try_finally {A} (body : Async S A) fin :
  leaves P body → leaves P fin → leaves P (try_finally body fin).
Proof.
  intros Hb Hf w. unfold try_finally.
  specialize (Hb w). destruct (body w) as [t1 r]; simpl in *.
  specialize (Hf w). destruct (fin w) as [t2 [[]|e]]; simpl in *;
    by apply Forall_app.
Qed.

Lemma leaves_if {A} (b : bool) (m1 m2 : Async S A) :
  leaves P m1 → leaves P m2 → leaves P (if b then m1 else m2).
Proof. by destruct b. Qed.

End Traces.

(** A property every updater of a trace preserves is preserved by the run. *)
Lemma apply_updates_preserves {S} (I : S → Prop) (t : list (Effect S)) (s : S) :
  Forall (λ e, match e with Update f => ∀ x, I x → I (f x) | _ => True end) t →
  I s → I (apply_updates t s).
Proof.
  unfold apply_updates. revert s.
  induction t as [|e t IH]; intros s Ht Hs; [done|].
  inversion_clear Ht as [|? ? He Ht'].
  destruct e; simpl; auto.
Qed.

Lemma apply_updates_app {S} (t1 t2 : list (Effect S)) (s : S) :
  apply_updates (t1 ++ t2) s = apply_updates t2 (apply_updates t1 s).
Proof. unfold apply_updates, updates. by rewrite omap_app, foldl_app. Qed.

Lemma requests_app {S} (t1 t2 : list (Effect S)) :
  requests (t1 ++ t2) = requests t1 ++ requests t2.
Proof. apply omap_app. Qed.

Lemma alerts_app {S} (t1 t2 : list (Effect S)) :
  alerts (t1 ++ t2) = alerts t1 ++ alerts t2.
Proof. apply omap_app. Qed.

(** A trace none of whose effects is a dialog shows none. *)
Lemma no_alerts {S} (t : list (Effect S)) :
  Forall (λ e, match e with Alert _ => False | _ => True end) t → alerts t = [].
Proof.
  induction 1 as [|e t He _ IH]; [done|].
  destruct e; simpl in *; done.
Qed.

End EffectsFacts.

Create HintDb leaves.

#[export] Hint Resolve EffectsFacts.leaves_ret EffectsFacts.leaves_bind
  EffectsFacts.leaves_emit EffectsFacts.leaves_lift EffectsFacts.leaves_date_now
  EffectsFacts.leaves_math_random EffectsFacts.leaves_fetch
  EffectsFacts.leaves_try_catch EffectsFacts.leaves_try_finally
  EffectsFacts.leaves_if : leaves.

(** ** Strings *)

Module StringFacts.
Import JS Spec.

Lemma forall_ascii (P : ascii → bool) : forallb P all_ascii = true → ∀ c, P c = true.
Proof.
  intros HP c. rewrite forallb_forall in HP. apply HP.
  rewrite <- (ascii_nat_embedding c). apply in_map, in_seq.
  pose proof (nat_ascii_bounded c). lia.
Qed.

Lemma is_byte_eq c n : is_byte c n = true → c = ascii_of_nat n.
Proof.
  unfold is_byte. intros Hn%Nat.eqb_eq. by rewrite <- Hn, ascii_nat_embedding.
Qed.

Lemma append_cons c s t : String c s +:+ t = String c (s +:+ t).
Proof. reflexivity. Qed.

Lemma append_nil_r s : s +:+ EmptyString = s.
Proof. induction s as [|c s IH]; [done|]. by rewrite append_cons, IH. Qed.

Lemma append_assoc s1 s2 s3 : (s1 +:+ s2) +:+ s3 = s1 +:+ (s2 +:+ s3).
Proof. induction s1 as [|c s IH]; [done|]. by rewrite !append_cons, IH. Qed.

(** *** [trim] *)

Lemma whitespace_only_nil : whitespace_only EmptyString.
Proof. by exists []. Qed.

Lemma whitespace_only_cons t w :
  t ∈ white_space → whitespace_only w → whitespace_only (t +:+ w).
Proof. intros Ht (chars & Hchars & ->). exists (t :: chars). split; [by constructor|done]. Qed.

Lemma whitespace_only_app w1 w2 :
  whitespace_only w1 → whitespace_only w2 → whitespace_only (w1 +:+ w2).
Proof.
  intros (chars & Hchars & ->) Hw2. induction Hchars as [|t chars Ht _ IH]; [done|].
  cbn [foldr]. rewrite append_assoc. by apply whitespace_only_cons.
Qed.


Lemma listed_implb (b : bool) (t : string) (l : list string) :
  implb b (existsb (String.eqb t) l) = true → b = true → t ∈ l.
Proof.
  intros Hb ->. cbn in Hb. apply existsb_exists in Hb as (x & Hx & ->%String.eqb_eq).
  by apply list_elem_of_In.
Qed.

Lemma is_space_char_white t : is_space_char t = true ↔ t ∈ white_space.
Proof.
  split.
  - destruct t as [|c1 [|c2 [|c3 [|c4 t]]]]; cbn [is_space_char]; try done.
    + apply listed_implb.
      apply (forall_ascii (λ c, implb (is_space c)
               (existsb (String.eqb (String c EmptyString)) white_space))).
      by vm_compute.
    + unfold is_space2. intros [->%is_byte_eq ->%is_byte_eq]%andb_true_iff.
      apply (bool_decide_unpack _). by vm_compute.
    + unfold is_space3. intros H.
      repeat (apply orb_true_iff in H as [H|H]).
      all: apply andb_true_iff in H as [H12 H3].
      all: apply andb_true_iff in H12 as [->%is_byte_eq ->%is_byte_eq].
      all: revert H3; apply listed_implb.
      all: match goal with
           | c : ascii |- ?g = true =>
               let P := eval pattern c in g in
               match P with ?f c => apply (forall_ascii f) end
           end.
      all: by vm_compute.
  - revert t. apply Forall_forall. repeat constructor.
Qed.

Lemma trimStart_strip t r : t ∈ white_space → trimStart (t +:+ r) = trimStart r.
Proof.
  revert t. apply Forall_forall. repeat constructor.
Qed.

Lemma trimStart_whitespace s : whitespace_only s → trimStart s = EmptyString.
Proof.
  intros (chars & Hchars & ->). induction Hchars as [|t chars Ht _ IH]; [done|].
  cbn [foldr]. by rewrite trimStart_strip.
Qed.

Lemma whitespace_only_char t : is_space_char t = true → whitespace_only t.
Proof.
  intros Ht%is_space_char_white. rewrite <- (append_nil_r t).
  apply whitespace_only_cons; [done|apply whitespace_only_nil].
Qed.

(** [trimStart] takes white space off the front. *)
Lemma trimStart_split s : ∃ w, whitespace_only w ∧ s = w +:+ trimStart s.
Proof.
  remember (String.length s) as n eqn:Hn. revert s Hn.
  induction (lt_wf n) as [n _ IH]. intros s ->.
  assert (∀ t r, s = t +:+ r → is_space_char t = true → trimStart s = trimStart r →
          String.length r < String.length s →
          ∃ w, whitespace_only w ∧ s = w +:+ trimStart s) as Hstep.
  { intros t r -> Ht -> Hlen.
    destruct (IH _ Hlen r eq_refl) as (w & Hw & Hr).
    exists (t +:+ w). split.
    - apply whitespace_only_cons; [by apply is_space_char_white|done].
    - by rewrite append_assoc, <- Hr. }
  assert (trimStart s = s → ∃ w, whitespace_only w ∧ s = w +:+ trimStart s) as Hstop.
  { intros ->. exists EmptyString. split; [apply whitespace_only_nil|done]. }
  destruct s as [|c1 r1]; [by apply Hstop|].
  destruct (is_space c1) eqn:H1.
  { apply (Hstep (String c1 EmptyString) r1); cbn; [done|done| |lia]. by rewrite H1. }
  destruct r1 as [|c2 r2]; [apply Hstop; cbn; by rewrite H1|].
  destruct (is_space2 c1 c2) eqn:H2.
  { apply (Hstep (String c1 (String c2 EmptyString)) r2); cbn; [done|done| |lia].
    by rewrite H1, H2. }
  destruct r2 as [|c3 r3]; [apply Hstop; cbn; by rewrite H1, H2|].
  destruct (is_space3 c1 c2 c3) eqn:H3; [|apply Hstop; cbn; by rewrite H1, H2, H3].
  apply (Hstep (String c1 (String c2 (String c3 EmptyString))) r3); cbn; [done|done| |lia].
  by rewrite H1, H2, H3.
Qed.

(** [trimEnd] takes white space off the end. *)
Lemma trimEnd_split s : ∃ w, whitespace_only w ∧ s = trimEnd s +:+ w.
Proof.
  induction s as [|c rest (w & Hw & Hrest)].
  - exists EmptyString. split; [apply whitespace_only_nil|done].
  - cbn [trimEnd]. destruct (is_space_char (String c (trimEnd rest))) eqn:Ht.
    + exists (String c (trimEnd rest) +:+ w). split.
      * apply whitespace_only_app; [by apply whitespace_only_char|done].
      * by rewrite append_cons, <- Hrest.
    + exists w. split; [done|]. by rewrite append_cons, <- Hrest.
Qed.

(** The guard's [!inputValue.trim()] is the specification's
    "empty or whitespace-only". *)
Lemma trim_empty_iff s : str_falsy (trim s) = true ↔ whitespace_only s.
Proof.
  unfold str_falsy, trim. rewrite String.eqb_eq. split.
  - intros Ht. destruct (trimStart_split s) as (w0 & Hw0 & Hs).
    destruct (trimEnd_split (trimStart s)) as (w & Hw & Hend).
    rewrite Ht in Hend. cbn in Hend. rewrite Hs, Hend.
    by apply whitespace_only_app.
  - intros Hs. by rewrite trimStart_whitespace.
Qed.


(** *** [toLowerCase] and [includes] *)

Lemma startsWith_app s post : startsWith (s +:+ post) s = true.
Proof. induction s as [|c s IH]; simpl; [by destruct post|]. by rewrite Ascii.eqb_refl. Qed.

Lemma includes_here s p : startsWith s p = true → includes s p = true.
Proof. intros Hp. destruct s; simpl in *; by rewrite Hp. Qed.

Lemma includes_app pre s post : includes (pre +:+ s +:+ post) s = true.
Proof.
  induction pre as [|c pre IH].
  - change (includes (s +:+ post) s = true). apply includes_here, startsWith_app.
  - change (includes (String c (pre +:+ s +:+ post)) s = true).
    cbn [includes]. rewrite IH. by destruct (startsWith _ _).
Qed.














End StringFacts.

(** ** ChatInterface *)

Module ChatFacts.
Import JS Effects Spec ChatInterface EffectsFacts StringFacts.

Section WithHost.
Context `{Host}.

Lemma setMessages_append m : leaves append_or_keep (setMessages (append m)).
Proof. apply leaves_emit. left. by exists m. Qed.

Lemma setInputValue_keeps v : leaves append_or_keep (setInputValue v).
Proof. apply leaves_emit. by right. Qed.

Lemma setIsLoading_keeps b : leaves append_or_keep (setIsLoading b).
Proof. apply leaves_emit. by right. Qed.

Lemma fetch_keeps r : leaves append_or_keep (fetch (S := State) r).
Proof. by apply leaves_fetch. Qed.

Hint Resolve setMessages_append setInputValue_keeps setIsLoading_keeps fetch_keeps : leaves.

Ltac leaves_tac :=
  repeat first
    [ apply leaves_bind; [|intros ?]
    | apply leaves_try_finally
    | apply leaves_try_catch; [|intros ?]
    | apply leaves_if
    | solve [auto with leaves] ].

Lemma try_body_leaves input : leaves append_or_keep (try_body input).
Proof. unfold try_body. leaves_tac. Qed.

Lemma catch_clause_leaves e : leaves append_or_keep (catch_clause e).
Proof. unfold catch_clause. leaves_tac. Qed.

Lemma handleSendMessage_leaves render : leaves append_or_keep (handleSendMessage render).
Proof.
  unfold handleSendMessage. apply leaves_if; [auto with leaves|].
  leaves_tac; auto using try_body_leaves, catch_clause_leaves.
Qed.

Lemma append_or_keep_prefix (t : list (Effect State)) (s : State) :
  Forall append_or_keep t → messages s `prefix_of` messages (apply_updates t s).
Proof.
  unfold apply_updates. revert s. induction t as [|e t IH]; intros s Ht; [done|].
  inversion_clear Ht as [|? ? He Ht'].
  destruct e as [r|f|l m|a]; simpl; auto.
  etrans; [|apply IH; done].
  destruct He as [[m Hm]|Hk]; [rewrite Hm; by apply prefix_app_r|by rewrite Hk].
Qed.

(** The run of a send that passed the guard: the three updates before the
    [try], the trace of the [try], of the [catch] if it threw, and the
    [finally]. *)
Lemma handleSendMessage_run render w :
  str_falsy (trim (inputValue render)) || isLoading render = false →
  ∃ user,
    m_type user = "user" ∧
    (handleSendMessage render w).1 =
      [Update (λ s, {| messages := append user (messages s);
                       inputValue := inputValue s; isLoading := isLoading s |});
       Update (λ s, {| messages := messages s;
                       inputValue := EmptyString; isLoading := isLoading s |});
       Update (λ s, {| messages := messages s;
                       inputValue := inputValue s; isLoading := true |})]
      ++ (try_catch (try_body (inputValue render)) catch_clause w).1
      ++ [Update (λ s, {| messages := messages s;
                          inputValue := inputValue s; isLoading := false |})].
Proof.
  intros Hguard. unfold handleSendMessage. rewrite Hguard.
  unfold mbind, async_bind, try_finally, date_now, setMessages, setInputValue,
    setIsLoading, emit. simpl.
  destruct (try_catch _ _ w) as [t r]; simpl.
  eexists. split; [|reflexivity]. reflexivity.
Qed.

(** A [try] that throws has appended at most the system message of the
    automatic setup, and no bubble of the bot. *)
Lemma try_body_throws input w e s :
  (try_body input w).2 = Throw e →
  ∃ earlier,
    messages (apply_updates (try_body input w).1 s) = messages s ++ earlier ∧
    isLoading (apply_updates (try_body input w).1 s) = isLoading s ∧
    List.filter is_bot_error earlier = [].
Proof.
  unfold try_body, mbind, async_bind, fetch, lift, date_now, setMessages, emit, mret,
    async_ret.
  destruct (net w setup_request) as [reason|setupResponse]; simpl;
    [intros _; exists []; by rewrite app_nil_r|].
  destruct (json setupResponse) as [setupData|]; simpl;
    [|intros _; exists []; by rewrite app_nil_r].
  destruct (get setupData "status") as [setup_status|]; simpl;
    [|intros _; exists []; by rewrite app_nil_r].
  destruct (is_str setup_status "setup_attempted"); simpl.
  - destruct (get setupData "setup_result") as [setup_result|]; simpl;
      [|intros _; exists []; by rewrite app_nil_r].
    destruct (net w (main_request _ _)) as [reason|response]; simpl;
      [intros _; eexists [_]; cbn; done|].
    destruct (json response) as [data|]; simpl; [|intros _; eexists [_]; cbn; done].
    destruct (botContent _ _ _) as [content|]; simpl; [done|].
    intros _; eexists [_]; cbn; done.
  - destruct (net w (main_request _ _)) as [reason|response]; simpl;
      [intros _; exists []; by rewrite app_nil_r|].
    destruct (json response) as [data|]; simpl;
      [|intros _; exists []; by rewrite app_nil_r].
    destruct (botContent _ _ _) as [content|]; simpl; [done|].
    intros _; exists []; by rewrite app_nil_r.
Qed.

(** The requests of a [try]: the setup check and, if the run gets that
    far, the one request the input selects. *)
Lemma try_body_requests input w :
  requests (try_body input w).1 `prefix_of`
    [setup_request;
     main_request (select_endpoint input)
       (select_requestData input (clock w 4) (clock w 5))].
Proof.
  unfold try_body, mbind, async_bind, fetch, lift, date_now, setMessages, emit, mret,
    async_ret.
  destruct (net w setup_request) as [reason|setupResponse]; simpl;
    [by eexists [_]|].
  destruct (json setupResponse) as [setupData|]; simpl; [|by eexists [_]].
  destruct (get setupData "status") as [setup_status|]; simpl; [|by eexists [_]].
  destruct (is_str setup_status "setup_attempted"); simpl.
  - destruct (get setupData "setup_result") as [setup_result|]; simpl; [|by eexists [_]].
    destruct (net w (main_request _ _)) as [reason|response]; simpl; [by exists []|].
    destruct (json response) as [data|]; simpl; [|by exists []].
    destruct (botContent _ _ _) as [content|]; simpl; by exists [].
  - destruct (net w (main_request _ _)) as [reason|response]; simpl; [by exists []|].
    destruct (json response) as [data|]; simpl; [|by exists []].
    destruct (botContent _ _ _) as [content|]; simpl; by exists [].
Qed.

Lemma handleSendMessage_requests render w :
  requests (handleSendMessage render w).1 `prefix_of`
    [setup_request;
     main_request (select_endpoint (inputValue render))
       (select_requestData (inputValue render) (clock w 4) (clock w 5))].
Proof.
  destruct (str_falsy (trim (inputValue render)) || isLoading render) eqn:Hguard.
  - unfold handleSendMessage. rewrite Hguard. by eexists [_; _].
  - destruct (handleSendMessage_run render w Hguard) as (user & _ & ->).
    rewrite !requests_app. cbn [requests omap app]. rewrite app_nil_r.
    unfold try_catch. pose proof (try_body_requests (inputValue render) w) as Hreq.
    destruct (try_body (inputValue render) w) as [t [[]|e]]; simpl in *; [done|].
    by rewrite requests_app, app_nil_r.
Qed.



End WithHost.


(** C9: when the input is empty or whitespace-only, or a send is in flight,
    [handleSendMessage] issues no request and leaves [messages],
    [inputValue] and [isLoading] of the current state as they are; the send
    button is disabled in the same renders. *)
Theorem handleSendMessage_guard `{Host} (render current : State) (w : World) :
  whitespace_only (inputValue render) ∨ isLoading render = true →
  requests (handleSendMessage render w).1 = [] ∧
  apply_updates (handleSendMessage render w).1 current = current ∧
  send_disabled render = true.
Proof.
  intros Hguard. unfold handleSendMessage, send_disabled.
  assert (str_falsy (trim (inputValue render)) || isLoading render = true) as ->; [|done].
  apply orb_true_iff. destruct Hguard as [Hs|Hl]; [left; by apply trim_empty_iff|by right].
Qed.

Lemma handleSendMessage_guard_witness :
  let render := {| messages := []; inputValue := Samples.blank; isLoading := false |} in
  let current := {| messages := []; inputValue := "next"; isLoading := false |} in
  let w := Demo.world (Demo.response true JNull) in
  requests (handleSendMessage render w).1 = [] ∧
  apply_updates (handleSendMessage render w).1 current = current ∧
  send_disabled render = true.
Proof.
  apply (handleSendMessage_guard (H := Demo.host)).
  left. exists [utf8 [9]; utf8 [194; 160]; utf8 [32]; utf8 [226; 128; 131];
                utf8 [227; 128; 128]; utf8 [239; 187; 191]; utf8 [10]].
  split; [|reflexivity].
  repeat (apply Forall_cons_2; [apply (bool_decide_unpack _); by vm_compute|]).
  apply Forall_nil_2.
Defined.

(** C10: the message list only grows at its end. Every state update of
    every operation of the chat either appends exactly one message to the
    list it finds or leaves the list alone, so the list before a run is a
    prefix of the list after it. *)
Theorem messages_append_only `{Host} (op : ChatOperation) (w : World) :
  Forall (λ e, match e with
               | Update f => appends_one f ∨ keeps_messages f
               | _ => True
               end) (chat_perform op w).1
  ∧ ∀ s, messages s `prefix_of` messages (apply_updates (chat_perform op w).1 s).
Proof.
  assert (Forall append_or_keep (chat_perform op w).1) as Ht.
  { destruct op as [render|v].
    - exact (handleSendMessage_leaves render w).
    - exact (setInputValue_keeps v w). }
  split; [exact Ht|]. intros s. by apply append_or_keep_prefix.
Qed.

(** C3: when the [try] of [handleSendMessage] throws an error [e], the run
    appends, among the messages it adds, exactly one bubble of type [bot]
    and status [error]; its content holds the error's message; and
    [isLoading] ends [false]. *)
Theorem send_failure_appends_error `{Host} (render s : State) (w : World) (e : string) :
  str_falsy (trim (inputValue render)) || isLoading render = false →
  (try_body (inputValue render) w).2 = Throw e →
  ∃ appended m,
    messages (apply_updates (handleSendMessage render w).1 s) = messages s ++ appended ∧
    List.filter is_bot_error appended = [m] ∧
    m_content m = "Verbindungsfehler: " +:+ e +:+ ". Überprüfen Sie, ob das Backend läuft." ∧
    includes (m_content m) e = true ∧
    isLoading (apply_updates (handleSendMessage render w).1 s) = false.
Proof.
  intros Hguard Hthrow.
  destruct (handleSendMessage_run render w Hguard) as (user & Huser & ->).
  rewrite !apply_updates_app.
  set (s1 := apply_updates [_; _; _] s).
  assert (messages s1 = messages s ++ [user]) as Hs1 by done.
  destruct (try_body_throws (inputValue render) w e s1 Hthrow)
    as (earlier & Hmsgs & Hload & Hnone).
  unfold try_catch.
  destruct (try_body (inputValue render) w) as [t r] eqn:Hbody.
  cbn [fst snd] in Hthrow, Hmsgs, Hload. subst r.
  simpl. rewrite apply_updates_app.
  set (s2 := apply_updates t s1) in *.
  eexists (user :: earlier ++ [_]), _.
  split_and!.
  - cbn. unfold append. rewrite Hmsgs, Hs1. by rewrite <- !app_assoc.
  - cbn [List.filter]. unfold is_bot_error at 1. rewrite Huser. cbn [String.eqb andb].
    rewrite List.filter_app, Hnone. reflexivity.
  - reflexivity.
  - apply includes_app.
  - reflexivity.
Qed.

Lemma send_failure_witness :
  let render := {| messages := []; inputValue := "hello"; isLoading := false |} in
  let w := Demo.world (Rejected "Failed to fetch") in
  ∃ appended m,
    messages (apply_updates (handleSendMessage render w).1 render)
      = messages render ++ appended ∧
    List.filter is_bot_error appended = [m] ∧
    m_content m = "Verbindungsfehler: Failed to fetch. Überprüfen Sie, ob das Backend läuft." ∧
    includes (m_content m) "Failed to fetch" = true ∧
    isLoading (apply_updates (handleSendMessage render w).1 render) = false.
Proof.
  intros render w.
  apply (send_failure_appends_error (H := Demo.host) render render w "Failed to fetch");
    reflexivity.
Defined.

End ChatFacts.

(** ** SystemMonitor *)

Module MonitorFacts.
Import JS Effects Spec SystemMonitor EffectsFacts.

(** [.slice(-n)] keeps at most [n] items, the last ones. *)
Lemma slice_last_length {A} n (l : list A) : length (slice_last n l) = min n (length l).
Proof. unfold slice_last. rewrite length_drop. lia. Qed.

Lemma slice_last_short {A} n (l : list A) : length l ≤ n → slice_last n l = l.
Proof. unfold slice_last. intros Hl. by replace (length l - n) with 0 by lia. Qed.

Lemma slice_last_full {A} n (l : list A) x :
  length l = n → 0 < n → slice_last n (l ++ [x]) = drop 1 l ++ [x].
Proof.
  unfold slice_last. intros Hl Hn. rewrite length_app. simpl.
  replace (length l + 1 - n) with 1 by lia.
  destruct l; simpl in *; [lia|]. by rewrite drop_0.
Qed.

Section WithHost.
Context `{Host}.

Lemma two_valued_insert_other o k k' v : k ≠ k' → two_valued o k' → two_valued (<[k := v]> o) k'.
Proof. unfold two_valued. intros Hk. by rewrite lookup_insert_ne. Qed.

Lemma two_valued_insert o k b : two_valued (<[k := mark b]> o) k.
Proof. unfold two_valued, mark. rewrite lookup_insert_eq. destruct b; auto. Qed.

Lemma assign_mark_keeps l k b :
  k = "backend" ∨ k = "learning" ∨ k = "flowise" →
  leaves keeps_two_valued (assign l k (mark b)).
Proof.
  intros Hk. apply leaves_emit. intros s Hs. unfold services_two_valued in *. simpl.
  apply Forall_alter; [done|]. intros o _ (Hb & Hl & Hf).
  destruct Hk as [-> | [-> | ->]]; split_and!;
    first [apply two_valued_insert | by apply two_valued_insert_other].
Qed.

Lemma assign_endpoint_keeps l v :
  leaves keeps_two_valued (assign l "flowise_endpoint" v).
Proof.
  apply leaves_emit. intros s Hs. unfold services_two_valued in *. simpl.
  apply Forall_alter; [done|]. intros o _ (Hb & Hl & Hf).
  split_and!; by apply two_valued_insert_other.
Qed.

Lemma setSystemData_keeps d : leaves keeps_two_valued (setSystemData d).
Proof. apply leaves_emit. by intros s Hs. Qed.

Lemma setLastUpdate_keeps t : leaves keeps_two_valued (setLastUpdate t).
Proof. apply leaves_emit. by intros s Hs. Qed.

Lemma setSystemData_error_keeps : leaves keeps_two_valued setSystemData_error.
Proof.
  apply leaves_emit. intros s Hs. unfold services_two_valued in *. simpl.
  apply Forall_app. split; [done|]. repeat constructor; by right; right.
Qed.

Lemma settled_keeps r : leaves keeps_two_valued (settled r).
Proof. intros w. by repeat constructor. Qed.

Lemma fetchSystemData_keeps captured : leaves keeps_two_valued (fetchSystemData captured).
Proof.
  unfold fetchSystemData, try_body, catch_clause.
  repeat first
    [ apply leaves_bind; [|intros ?]
    | apply leaves_try_catch; [|intros ?]
    | apply leaves_if
    | apply (assign_mark_keeps _ _ true); auto
    | apply (assign_mark_keeps _ _ false); auto
    | apply assign_endpoint_keeps
    | apply setSystemData_keeps
    | apply setLastUpdate_keeps
    | apply setSystemData_error_keeps
    | apply settled_keeps
    | match goal with |- leaves _ (let '(_, _) := ?p in _) => destruct p end
    | apply leaves_emit; exact I
    | solve [auto with leaves] ].
Qed.

Lemma step_keeps s e : services_two_valued s → services_two_valued (step s e).
Proof.
  intros Hs. destruct e as [w|w]; simpl;
    apply (apply_updates_preserves services_two_valued); try done;
    apply fetchSystemData_keeps.
Qed.

Lemma run_keeps s es : services_two_valued s → services_two_valued (run s es).
Proof.
  unfold run. revert s. induction es as [|e es IH]; intros s Hs; [done|].
  simpl. apply IH. by apply step_keeps.
Qed.

Lemma badge_two_valued (o : gmap string JsVal) k :
  two_valued o k →
  let v := js_or (default JUndefined (o !! k)) (JStr "offline") in
  v = JStr "online" ∨ v = JStr "offline".
Proof. unfold two_valued. intros [Hk|[Hk|Hk]]; rewrite Hk; simpl; auto. Qed.

(** [Promise.allSettled] issues the three requests whatever their outcomes. *)
Lemma fetchSystemData_sent captured w :
  requests (fetchSystemData captured w).1 =
    [status_request; learning_request; flowise_request].
Proof.
  unfold fetchSystemData, try_catch, try_body, mbind, async_bind, settled, lift, assign,
    setSystemData, setLastUpdate, date_now, math_random, emit, mret, async_ret, value_json.
  simpl.
  destruct (net w status_request) as [r1|[[] json1]];
  destruct (net w learning_request) as [r2|[[] json2]];
  destruct (net w flowise_request) as [r3|[[] json3]]; simpl.
  all: repeat match goal with
       | |- context [match ?c with Normal _ => _ | Throw _ => _ end] =>
           destruct c; simpl
       end.
  all: reflexivity.
Qed.

End WithHost.

(** C1: in a poll that does not reach the outer [catch], each of the three
    services is marked ['online'] exactly when its own request settled
    fulfilled with an ok response, and ['offline'] otherwise; the three
    requests are issued together, whatever their outcomes. *)
Theorem services_marked_by_own_call `{Host} (captured : SystemData) (s : State) (w : World) :
  services captured < length (heap s) →
  (try_body captured w).2 = Normal () →
  let s' := apply_updates (fetchSystemData captured w).1 s in
  requests (fetchSystemData captured w).1 =
    [status_request; learning_request; flowise_request] ∧
  ∃ o, heap s' !! services (systemData s') = Some o ∧
       o !! "backend" = Some (mark (fulfilled_ok (net w status_request))) ∧
       o !! "learning" = Some (mark (fulfilled_ok (net w learning_request))) ∧
       o !! "flowise" = Some (mark (fulfilled_ok (net w flowise_request))).
Proof.
  intros Hl Hok s'. subst s'. split; [apply fetchSystemData_sent|].
  destruct (heap s !! services captured) as [o0|] eqn:Ho0;
    [|apply lookup_ge_None in Ho0; lia].
  revert Hok.
  unfold fetchSystemData, try_catch, try_body, mbind, async_bind, settled, lift,
    assign, setSystemData, setLastUpdate, date_now, math_random, emit, mret, async_ret,
    value_json.
  simpl.
  destruct (net w status_request) as [r1|[[] json1]];
  destruct (net w learning_request) as [r2|[[] json2]];
  destruct (net w flowise_request) as [r3|[[] json3]]; simpl.
  all: repeat match goal with
       | |- context [match ?c with Normal _ => _ | Throw _ => _ end] =>
           destruct c; simpl; try discriminate
       end.
  all: intros _; cbn; rewrite !list_lookup_alter_eq, Ho0; simpl.
  all: eexists; split; [reflexivity|]; by simplify_map_eq.
Qed.

Lemma services_marked_witness :
  let s' := apply_updates
              (fetchSystemData (H := Demo.host) initialSystemData Demo.mixed_world).1
              (initial 0) in
  requests (fetchSystemData (H := Demo.host) initialSystemData Demo.mixed_world).1 =
    [status_request; learning_request; flowise_request] ∧
  ∃ o, heap s' !! services (systemData s') = Some o ∧
       o !! "backend" = Some (JStr "online") ∧
       o !! "learning" = Some (JStr "offline") ∧
       o !! "flowise" = Some (JStr "offline").
Proof.
  apply (services_marked_by_own_call (H := Demo.host) initialSystemData (initial 0)
           Demo.mixed_world); [simpl; lia|reflexivity].
Defined.

(** C2, as the code has it: in every state the component reaches, the
    badges of the three polled services print ['online'] or ['offline'],
    and the fourth badge, of the LLM service, prints ['checking']. *)
Theorem polled_badges_two_valued `{Host} (t0 : Z) (events : list Event) :
  ∃ a b c,
    service_badges (run (initial t0) events) =
      [ ("Backend API", a); ("Lern-Engine", b); ("Flowise", c);
        ("LLM Service", JStr "checking") ] ∧
    (a = JStr "online" ∨ a = JStr "offline") ∧
    (b = JStr "online" ∨ b = JStr "offline") ∧
    (c = JStr "online" ∨ c = JStr "offline").
Proof.
  assert (services_two_valued (run (initial t0) events)) as Hinv.
  { apply run_keeps. repeat constructor; by left. }
  set (s := run (initial t0) events) in *.
  unfold service_badges.
  assert (two_valued (default ∅ (heap s !! services (systemData s))) "backend" ∧
          two_valued (default ∅ (heap s !! services (systemData s))) "learning" ∧
          two_valued (default ∅ (heap s !! services (systemData s))) "flowise")
    as (Hb & Hl & Hf).
  { destruct (heap s !! services (systemData s)) as [o|] eqn:Ho; simpl.
    - unfold services_two_valued in Hinv. rewrite Forall_lookup in Hinv. by eapply Hinv.
    - split_and!; by left. }
  do 3 eexists. split; [reflexivity|].
  split_and!; by apply badge_two_valued.
Qed.

(** C2, as stated, fails: after a poll in which all three services
    answered, the dashboard still shows a badge that is neither ['online']
    nor ['offline']. *)
Lemma llm_badge_is_checking :
  let s := run (H := Demo.host) (initial 0) [Timer (Demo.world (Demo.response true (JObj ∅)))] in
  ¬ (∀ label v, (label, v) ∈ service_badges s → v = JStr "online" ∨ v = JStr "offline").
Proof.
  intros s Hall.
  destruct (Hall "LLM Service" (JStr "checking")) as [Hv|Hv]; [|done..].
  unfold service_badges. repeat constructor.
Qed.

(** C5 at two polls of the interval: both succeed, and the window holds one
    sample, the second, where the claim has it hold two. The function the
    interval calls is the one of the first render, whose [systemData] has
    an empty [performance]. *)
Lemma interval_polls_reset_window :
  let w1 := Demo.world (Demo.response true (JObj ∅)) in
  let w2 := Demo.later w1 in
  let s1 := step (H := Demo.host) (initial 0) (Timer w1) in
  let s2 := step (H := Demo.host) s1 (Timer w2) in
  (try_body (H := Demo.host) initialSystemData w1).2 = Normal () ∧
  (try_body (H := Demo.host) initialSystemData w2).2 = Normal () ∧
  timestamp <$> performance (systemData s1) = [1000%Z] ∧
  timestamp <$> performance (systemData s2) = [6000%Z].
Proof. vm_compute. done. Qed.

(** The refresh button calls the function of the current render, and
    there the window is extended by the new sample and cut to the last
    twenty. *)
Lemma refresh_extends_window `{Host} (s : State) (w : World) :
  (try_body (systemData s) w).2 = Normal () →
  ∃ sample,
    performance (systemData (step s (Refresh w))) =
      slice_last 20 (performance (systemData s) ++ [sample]) ∧
    timestamp sample = clock w 0.
Proof.
  simpl. unfold fetchSystemData, try_catch.
  unfold try_body, mbind, async_bind, settled, lift,
    assign, setSystemData, setLastUpdate, date_now, math_random, emit, mret, async_ret,
    value_json.
  simpl.
  destruct (net w status_request) as [r1|[[] json1]];
  destruct (net w learning_request) as [r2|[[] json2]];
  destruct (net w flowise_request) as [r3|[[] json3]]; simpl.
  all: repeat match goal with
       | |- context [match ?c with Normal _ => _ | Throw _ => _ end] =>
           destruct c; simpl; try discriminate
       end.
  all: intros _; cbn; eexists; split; reflexivity.
Qed.

(** So under the refresh button the window never holds more than twenty
    samples: it grows by one below the cap and drops its oldest at the cap. *)
Lemma refresh_window_capped `{Host} (s : State) (w : World) :
  (try_body (systemData s) w).2 = Normal () →
  let before := performance (systemData s) in
  let after := performance (systemData (step s (Refresh w))) in
  length after ≤ 20 ∧
  (length before < 20 → ∃ sample, after = before ++ [sample]) ∧
  (length before = 20 → ∃ sample, after = drop 1 before ++ [sample]).
Proof.
  intros Hok before after.
  destruct (refresh_extends_window s w Hok) as (sample & Hafter & _).
  subst before after. rewrite Hafter. split_and!.
  - rewrite slice_last_length. lia.
  - intros Hlt. exists sample. apply slice_last_short. rewrite length_app. simpl. lia.
  - intros Heq. exists sample. by apply slice_last_full; [|lia].
Qed.

(** The interval calls the function of the first render: after a poll of
    the interval that succeeds, the window holds the new sample alone,
    whatever it held before. *)
Lemma interval_resets_window `{Host} (s : State) (w : World) :
  (try_body initialSystemData w).2 = Normal () →
  length (performance (systemData (step s (Timer w)))) = 1.
Proof.
  simpl. unfold fetchSystemData, try_catch.
  unfold try_body, mbind, async_bind, settled, lift,
    assign, setSystemData, setLastUpdate, date_now, math_random, emit, mret, async_ret,
    value_json.
  simpl.
  destruct (net w status_request) as [r1|[[] json1]];
  destruct (net w learning_request) as [r2|[[] json2]];
  destruct (net w flowise_request) as [r3|[[] json3]]; simpl.
  all: repeat match goal with
       | |- context [match ?c with Normal _ => _ | Throw _ => _ end] =>
           destruct c; simpl; try discriminate
       end.
  all: intros _; reflexivity.
Qed.

End MonitorFacts.

(** ** The operations of the dashboard *)

Module DashboardFacts.
Import JS Effects Spec EffectsFacts.

Lemma NoDup_prefix {A} (l k : list A) : l `prefix_of` k → NoDup k → NoDup l.
Proof. intros [k' ->] Hk. by apply NoDup_app in Hk as (? & _ & _). Qed.

Section WithHost.
Context `{Host}.

Ltac silent_tac :=
  repeat first
    [ apply leaves_bind; [|intros ?]
    | apply leaves_try_finally
    | apply leaves_try_catch; [|intros ?]
    | apply leaves_if
    | apply leaves_emit; exact I
    | apply leaves_fetch; exact I
    | solve [auto with leaves]
    | match goal with |- leaves _ (let '(_, _) := ?p in _) => destruct p end ].

Lemma fetchFlowiseData_silent : leaves silent FlowiseManager.fetchFlowiseData.
Proof. unfold FlowiseManager.fetchFlowiseData. silent_tac. Qed.

Lemma handleCreateChatflow_silent render :
  leaves silent (FlowiseManager.handleCreateChatflow render).
Proof.
  unfold FlowiseManager.handleCreateChatflow. silent_tac.
Qed.

Lemma handleTestChatflow_silent render chatflowId :
  leaves silent (FlowiseManager.handleTestChatflow render chatflowId).
Proof. unfold FlowiseManager.handleTestChatflow. silent_tac. Qed.

Lemma fetchSystemData_silent captured : leaves silent (SystemMonitor.fetchSystemData captured).
Proof.
  unfold SystemMonitor.fetchSystemData, SystemMonitor.try_body, SystemMonitor.catch_clause.
  silent_tac; intros w; by repeat constructor.
Qed.

Lemma app_mount_silent : leaves silent App.useEffect_mount.
Proof. unfold App.useEffect_mount. silent_tac. Qed.

Lemma handleSendMessage_silent render : leaves silent (ChatInterface.handleSendMessage render).
Proof.
  unfold ChatInterface.handleSendMessage, ChatInterface.try_body, ChatInterface.catch_clause.
  silent_tac.
Qed.

(** The poll of the Flowise panel asks for the configuration, the
    chatflows and the connection test, in this order, and stops at the
    first request that fails. *)
Lemma fetchFlowiseData_requests w :
  requests (FlowiseManager.fetchFlowiseData w).1 `prefix_of`
    [FlowiseManager.config_request; FlowiseManager.chatflows_request;
     FlowiseManager.test_connection_request].
Proof.
  unfold FlowiseManager.fetchFlowiseData, try_finally, try_catch, mbind, async_bind, fetch,
    lift, emit, mret, async_ret, FlowiseManager.setLoading, FlowiseManager.setFlowiseConfig,
    FlowiseManager.setChatflows.
  simpl.
  repeat match goal with
    | |- context [net w ?r] => destruct (net w r) as [?|[[] [?|?]]]; simpl
    | |- context [match ?c with Normal _ => _ | Throw _ => _ end] => destruct c; simpl
    end.
  all: eexists; reflexivity.
Qed.

Lemma fetchFlowiseData_alerts w : alerts (FlowiseManager.fetchFlowiseData w).1 = [].
Proof. apply no_alerts, fetchFlowiseData_silent. Qed.

Lemma flowise_poll_NoDup : NoDup flowise_poll.
Proof.
  unfold flowise_poll.
  repeat (apply NoDup_cons; split;
          [rewrite ?elem_of_cons, elem_of_nil; intuition discriminate|]).
  constructor.
Qed.

(** A request that is none of the poll's, followed by the poll, repeats
    nothing. *)
Lemma NoDup_then_poll r t :
  r ∉ flowise_poll → t `prefix_of` flowise_poll → NoDup (r :: t).
Proof.
  intros Hr Ht. apply NoDup_cons. split.
  - intros Hin. apply Hr. destruct Ht as [k ->]. apply elem_of_app. by left.
  - eapply NoDup_prefix; [done|apply flowise_poll_NoDup].
Qed.

Lemma post_chatflows_not_poll b :
  {| url := FlowiseManager.base +:+ "/chatflows"; method := POST;
     headers := json_headers; body := b |} ∉ flowise_poll.
Proof. unfold flowise_poll. rewrite !elem_of_cons, elem_of_nil. intros [?|[?|[?|[]]]]; done. Qed.

Lemma optimize_not_poll chatflowId : FlowiseManager.optimize_request chatflowId ∉ flowise_poll.
Proof.
  unfold flowise_poll. rewrite !elem_of_cons, elem_of_nil.
  intros [?|[?|[?|[]]]]; done.
Qed.

Lemma auto_optimize_not_poll : FlowiseManager.auto_optimize_request ∉ flowise_poll.
Proof. unfold flowise_poll. rewrite !elem_of_cons, elem_of_nil. intros [?|[?|[?|[]]]]; done. Qed.

Local Opaque FlowiseManager.fetchFlowiseData.

Ltac run_handler w :=
  repeat match goal with
    | |- context [net w ?r] => destruct (net w r) as [?|[[] [?|?]]]; simpl
    | |- context [match ?c with Normal _ => _ | Throw _ => _ end] =>
        lazymatch c with
        | context [match _ with Normal _ => _ | Throw _ => _ end] => fail
        | _ => destruct c; simpl
        end
    | |- context [FlowiseManager.fetchFlowiseData w] =>
        let Hreq := fresh "Hreq" in
        let Hal := fresh "Hal" in
        pose proof (fetchFlowiseData_requests w) as Hreq;
        pose proof (fetchFlowiseData_alerts w) as Hal;
        destruct (FlowiseManager.fetchFlowiseData w) as [? [[]|?]]; simpl in *
    end.

Lemma handleCreateChatflow_sent render w :
  NoDup (requests (FlowiseManager.handleCreateChatflow render w).1).
Proof.
  unfold FlowiseManager.handleCreateChatflow, FlowiseManager.create_request,
    FlowiseManager.cbind, try_catch, mbind, async_bind, fetch, lift, emit, mret,
    async_ret, FlowiseManager.setNewChatflow.
  simpl. run_handler w.
  all: rewrite ?requests_app, ?app_nil_r; cbn [requests omap];
    try (apply NoDup_then_poll; [apply post_chatflows_not_poll|done]).
  all: first [apply NoDup_nil_2 | apply NoDup_singleton].
Qed.

Lemma handleOptimizeChatflow_sent chatflowId w :
  NoDup (requests (FlowiseManager.handleOptimizeChatflow chatflowId w).1).
Proof.
  unfold FlowiseManager.handleOptimizeChatflow, try_catch, mbind, async_bind, fetch, lift,
    emit, mret, async_ret.
  simpl. run_handler w.
  all: rewrite ?requests_app, ?app_nil_r; cbn [requests omap];
    try (apply NoDup_then_poll; [apply optimize_not_poll|done]).
  all: first [apply NoDup_nil_2 | apply NoDup_singleton].
Qed.

Lemma handleAutoOptimize_sent w :
  NoDup (requests (FlowiseManager.handleAutoOptimize w).1).
Proof.
  unfold FlowiseManager.handleAutoOptimize, try_catch, mbind, async_bind, fetch, lift,
    emit, mret, async_ret.
  simpl. run_handler w.
  all: rewrite ?requests_app, ?app_nil_r; cbn [requests omap];
    try (apply NoDup_then_poll; [apply auto_optimize_not_poll|done]).
  all: first [apply NoDup_nil_2 | apply NoDup_singleton].
Qed.

Lemma handleOptimizeChatflow_dialogs chatflowId w :
  alerts (FlowiseManager.handleOptimizeChatflow chatflowId w).1 = [] ∨
  succeeded (net w (FlowiseManager.optimize_request chatflowId)) = true ∧
  ∃ text, alerts (FlowiseManager.handleOptimizeChatflow chatflowId w).1 = [text].
Proof.
  unfold FlowiseManager.handleOptimizeChatflow, try_catch, mbind, async_bind, fetch, lift,
    emit, mret, async_ret.
  simpl. run_handler w.
  all: rewrite ?alerts_app, ?app_nil_r; cbn [alerts omap]; rewrite ?Hal;
    first [by left | right; split; [done|by eexists]].
Qed.

Lemma handleAutoOptimize_dialogs w :
  alerts (FlowiseManager.handleAutoOptimize w).1 = [] ∨
  succeeded (net w FlowiseManager.auto_optimize_request) = true ∧
  ∃ text, alerts (FlowiseManager.handleAutoOptimize w).1 = [text].
Proof.
  unfold FlowiseManager.handleAutoOptimize, try_catch, mbind, async_bind, fetch, lift,
    emit, mret, async_ret.
  simpl. run_handler w.
  all: rewrite ?alerts_app, ?app_nil_r; cbn [alerts omap]; rewrite ?Hal;
    first [by left | right; split; [done|by eexists]].
Qed.

Lemma handleTestChatflow_sent render chatflowId w :
  NoDup (requests (FlowiseManager.handleTestChatflow render chatflowId w).1).
Proof.
  unfold FlowiseManager.handleTestChatflow.
  destruct (str_falsy _); [constructor|].
  unfold try_catch, mbind, async_bind, fetch, lift, date_now, emit, mret, async_ret.
  simpl. run_handler w.
  all: first [apply NoDup_nil_2 | apply NoDup_singleton].
Qed.

Lemma app_mount_sent w : requests (App.useEffect_mount w).1 = [App.status_request].
Proof.
  unfold App.useEffect_mount, try_catch, mbind, async_bind, fetch, App.setSystemStatus, emit.
  simpl. by destruct (net w App.status_request) as [?|[[] ?]].
Qed.

Lemma select_endpoint_not_setup input d :
  ChatInterface.setup_request ≠ ChatInterface.main_request (ChatInterface.select_endpoint input) d.
Proof.
  unfold ChatInterface.select_endpoint.
  repeat match goal with |- context [if ?b then _ else _] => destruct b end; done.
Qed.

Lemma handleSendMessage_sent render w :
  NoDup (requests (ChatInterface.handleSendMessage render w).1).
Proof.
  eapply NoDup_prefix; [apply ChatFacts.handleSendMessage_requests|].
  apply NoDup_cons. split; [|apply NoDup_singleton].
  rewrite list_elem_of_singleton. apply select_endpoint_not_setup.
Qed.

End WithHost.

(** The Flowise panel starts at a third state too: after a first poll in
    which no request failed outright and none was answered ok, its badges
    print ['checking'], and the fallback text for the LLM. *)
Lemma flowise_badges_start_checking :
  let w := Demo.world (Demo.response false JNull) in
  let s := apply_updates (FlowiseManager.fetchFlowiseData w).1 FlowiseManager.initial in
  FlowiseManager.status_badges s =
    Normal [ ("Flowise-Status", JStr "checking");
             ("Flowise Endpoint", JStr "checking");
             ("LLM Endpoint", JStr "Prüfung...") ].
Proof. vm_compute. reflexivity. Qed.

(** C4, as the code has it: no operation of the dashboard sends a request
    twice in one run, so none is retried; and a dialog is opened only by
    the two optimisation handlers, only once, and only when their request
    succeeded. Every other outcome stays in the state and the console. *)
Theorem failures_stay_inline `{Host} (op : Operation) (w : World) :
  NoDup (sent (perform op w)) ∧
  match dialog_request op with
  | Some r =>
      dialogs (perform op w) = [] ∨
      succeeded (net w r) = true ∧ ∃ text, dialogs (perform op w) = [text]
  | None => dialogs (perform op w) = []
  end.
Proof.
  destruct op; simpl; split.
  - rewrite app_mount_sent. apply NoDup_singleton.
  - apply no_alerts, app_mount_silent.
  - rewrite MonitorFacts.fetchSystemData_sent.
    repeat (apply NoDup_cons; split;
            [rewrite ?elem_of_cons, elem_of_nil; intuition discriminate|]).
    constructor.
  - apply no_alerts, fetchSystemData_silent.
  - eapply NoDup_prefix; [apply fetchFlowiseData_requests|apply flowise_poll_NoDup].
  - apply fetchFlowiseData_alerts.
  - apply handleCreateChatflow_sent.
  - apply no_alerts, handleCreateChatflow_silent.
  - apply handleTestChatflow_sent.
  - apply no_alerts, handleTestChatflow_silent.
  - apply handleOptimizeChatflow_sent.
  - apply handleOptimizeChatflow_dialogs.
  - apply handleAutoOptimize_sent.
  - apply handleAutoOptimize_dialogs.
  - apply handleSendMessage_sent.
  - apply no_alerts, handleSendMessage_silent.
Qed.

(** C4, as stated, fails: an automatic optimisation that succeeds tells
    the user so in an [alert] dialog. *)
Lemma auto_optimize_opens_dialog :
  dialogs (perform (H := Demo.host) AutoOptimize
             (Demo.world (Demo.response true (FlowiseManager.obj [("results", JArr [])]))))
  = ["Auto-Optimierung abgeschlossen: 0 Chatflows verarbeitet"].
Proof. vm_compute. reflexivity. Qed.

End DashboardFacts.

(** ** Intervals *)

Module TimerFacts.
Import Browser Spec.

(** An interval of a positive delay fires at the whole multiples of the
    delay after its registration, and at no other time. *)
Lemma fires_iff (i : Interval) (t : Z) :
  (0 < delay i)%Z →
  fires i t = true ↔ ∃ k, (0 < k)%Z ∧ t = (started i + k * delay i)%Z.
Proof.
  intros Hd. unfold fires. rewrite andb_true_iff, Z.ltb_lt, Z.eqb_eq. split.
  - intros [Hlt Hmod]. exists ((t - started i) / delay i)%Z.
    pose proof (Z.div_mod (t - started i) (delay i)) as Hdm.
    rewrite Hmod in Hdm. split; [|lia].
    apply Z.div_str_pos. split; [lia|].
    assert (Hle : (delay i <= t - started i)%Z ∨ (t - started i < delay i)%Z) by lia.
    destruct Hle as [|Hsmall]; [done|].
    rewrite Z.mod_small in Hmod by lia. lia.
  - intros (k & Hk & ->). split; [nia|].
    replace (started i + k * delay i - started i)%Z with (k * delay i)%Z by lia.
    apply Z.mod_mul. lia.
Qed.

(** With one interval alive, the page calls its function when it fires. *)
Lemma due_singleton tm id (i : Interval) (t : Z) :
  active tm = {[ id := i ]} → due tm t = if fires i t then [callback i] else [].
Proof.
  intros Ha. unfold due. rewrite Ha, map_to_list_singleton. simpl.
  rewrite filter_cons. destruct (fires i t); by case_decide.
Qed.

Lemma no_timers_idle tm : active tm = ∅ → idle tm.
Proof. intros Ha t. unfold due. by rewrite Ha, map_to_list_empty. Qed.

Lemma singleton_polls tm id cb ms since :
  (0 < ms)%Z →
  active tm = {[ id := {| callback := cb; delay := ms; started := since |} ]} →
  polls_every tm cb ms.
Proof.
  intros Hms Ha. exists since. intros t cb'.
  rewrite (due_singleton tm id _ t Ha).
  pose proof (fires_iff {| callback := cb; delay := ms; started := since |} t Hms) as Hf.
  simpl in *. destruct (fires _ t).
  - rewrite list_elem_of_singleton. split; [intros ->; split; [done|by apply Hf]|by intros [-> _]].
  - rewrite elem_of_nil. split; [done|]. intros [_ Hk]. by apply Hf in Hk.
Qed.

Lemma unmount_clears pg : page_ok pg → active (App.close_page pg) = ∅.
Proof.
  unfold page_ok, App.close_page, App.unmount.
  destruct (App.panel pg); try done.
  - intros (id & since & -> & Ha). simpl. rewrite Ha. apply delete_singleton_eq.
  - intros (id & since & -> & Ha). simpl. rewrite Ha. apply delete_singleton_eq.
Qed.

Lemma mount_ok p now t :
  active t = ∅ →
  page_ok {| App.timers := (App.mount p now t).2; App.panel := p;
             App.cleanup := (App.mount p now t).1 |}.
Proof.
  intros Ht. unfold page_ok. destruct p; simpl; rewrite Ht; try done.
  - exists (next_id t), now. by rewrite insert_empty.
  - exists (next_id t), now. by rewrite insert_empty.
Qed.

Lemma open_page_ok now : page_ok (App.open_page now).
Proof. vm_compute. by exists 1, now. Qed.

Lemma setActiveTab_ok tab now pg : page_ok pg → page_ok (App.setActiveTab tab now pg).
Proof.
  intros Hpg. unfold App.setActiveTab. case_decide; [done|].
  pose proof (mount_ok (App.renderContent tab) now
                (App.unmount (App.panel pg) (App.cleanup pg) (App.timers pg))
                (unmount_clears pg Hpg)) as Hm.
  by destruct (App.mount _ _ _).
Qed.

Lemma navigate_ok pg clicks : page_ok pg → page_ok (App.navigate pg clicks).
Proof.
  unfold App.navigate. revert pg.
  induction clicks as [|c clicks IH]; intros pg Hpg; [done|].
  simpl. by apply IH, setActiveTab_ok.
Qed.

(** C6: while SystemMonitor is on screen the page calls its
    [fetchSystemData] every 5000 ms, and while FlowiseManager is on screen
    its [fetchFlowiseData] every 30000 ms, and nothing else; each effect
    registers its interval with that delay and its cleanup clears the id
    the registration returned; once the panel is unmounted no timer is left
    and nothing is called any more. *)
Theorem polling_intervals (now : Z) (clicks : list (string * Z)) :
  let pg := App.navigate (App.open_page now) clicks in
  match App.panel pg with
  | App.SystemMonitor => polls_every (App.timers pg) fetchSystemData_cb 5000
  | App.FlowiseManager => polls_every (App.timers pg) fetchFlowiseData_cb 30000
  | _ => idle (App.timers pg)
  end
  ∧ active (App.close_page pg) = ∅
  ∧ idle (App.close_page pg)
  ∧ (∀ t0 tm,
       let '(id, tm') := SystemMonitor.useEffect_mount t0 tm in
       active tm' !! id =
         Some {| callback := fetchSystemData_cb; delay := 5000; started := t0 |} ∧
       active (SystemMonitor.useEffect_cleanup id tm') !! id = None)
  ∧ (∀ t0 tm,
       let '(id, tm') := FlowiseManager.useEffect_mount t0 tm in
       active tm' !! id =
         Some {| callback := fetchFlowiseData_cb; delay := 30000; started := t0 |} ∧
       active (FlowiseManager.useEffect_cleanup id tm') !! id = None).
Proof.
  intros pg.
  assert (page_ok pg) as Hpg by apply navigate_ok, open_page_ok.
  split_and!.
  - unfold page_ok in Hpg. destruct (App.panel pg);
      first [ destruct Hpg as (id & since & _ & Ha); by eapply singleton_polls
            | by apply no_timers_idle ].
  - by apply unmount_clears.
  - by apply no_timers_idle, unmount_clears.
  - intros t0 tm. simpl. by rewrite lookup_insert_eq, lookup_delete_eq.
  - intros t0 tm. simpl. by rewrite lookup_insert_eq, lookup_delete_eq.
Qed.

End TimerFacts.

(** ** The start script *)

Module ScriptFacts.
Import StartScript Demo.

(** C7, as the code has it: without [docker-compose.yaml] the script exits
    with status 1 and runs no command; with it, and when [docker-compose up
    -d], the wait and [docker-compose ps] each succeed, the script runs
    them in this order, prints the access point and exits with status 0. *)
Theorem start_sh_runs (env : Env) :
  (file_exists env "docker-compose.yaml" = false →
     (run_script env start_sh).2 = 1 ∧
     commands (run_script env start_sh).1 = [])
  ∧ (file_exists env "docker-compose.yaml" = true →
     exit_status env up = 0 → exit_status env sleep = 0 → exit_status env ps = 0 →
     (run_script env start_sh).2 = 0 ∧
     commands (run_script env start_sh).1 = [up; sleep; ps] ∧
     access_point ∈ output (run_script env start_sh).1).
Proof.
  split.
  - intros Hfile. unfold run_script, start_sh. simpl. by rewrite Hfile.
  - intros Hfile Hup Hsleep Hps. unfold run_script, start_sh. simpl.
    unfold up, sleep, ps in *. rewrite Hfile, Hup, Hsleep, Hps. simpl.
    split_and!; [done..|]. unfold access_point. repeat constructor.
Qed.

Lemma start_sh_runs_witness :
  ((run_script missing_file start_sh).2 = 1 ∧
   commands (run_script missing_file start_sh).1 = [])
  ∧ ((run_script all_well start_sh).2 = 0 ∧
     commands (run_script all_well start_sh).1 = [up; sleep; ps] ∧
     access_point ∈ output (run_script all_well start_sh).1).
Proof.
  split.
  - apply (proj1 (start_sh_runs missing_file)). reflexivity.
  - apply (proj2 (start_sh_runs all_well)); reflexivity.
Defined.

(** C7, as stated, fails: with the file present and [docker-compose up -d]
    failing, [set -e] ends the script there: [docker-compose ps] is not run
    and the access point is not printed. *)
Lemma start_sh_stops_when_up_fails :
  file_exists daemon_down "docker-compose.yaml" = true ∧
  commands (run_script daemon_down start_sh).1 = [up] ∧
  (ps ∉ commands (run_script daemon_down start_sh).1) ∧
  (access_point ∉ output (run_script daemon_down start_sh).1) ∧
  (run_script daemon_down start_sh).2 = 1.
Proof.
  split_and!; try reflexivity.
  - intros Hin. apply list_elem_of_In in Hin. vm_compute in Hin. intuition discriminate.
  - intros Hin. apply list_elem_of_In in Hin. vm_compute in Hin. intuition discriminate.
Qed.

End ScriptFacts.

(** ** More of ChatInterface *)

Module ChatMore.
Import JS Effects Spec Notions ChatInterface ChatView EffectsFacts StringFacts.

Section WithHost.
Context `{Host}.

(** The [try] and [catch] of a send, whatever the network does: they end
    normally, leave input and loading flag alone, and append at most the
    system message of the setup and then exactly one bubble of the bot. *)
Lemma reply_run input w s :
  ∃ middle bot,
    (try_catch (try_body input) catch_clause w).2 = Normal () ∧
    messages (apply_updates (try_catch (try_body input) catch_clause w).1 s)
      = messages s ++ middle ++ [bot] ∧
    inputValue (apply_updates (try_catch (try_body input) catch_clause w).1 s)
      = inputValue s ∧
    isLoading (apply_updates (try_catch (try_body input) catch_clause w).1 s)
      = isLoading s ∧
    m_type bot = "bot" ∧ (m_status bot = "success" ∨ m_status bot = "error") ∧
    (middle = [] ∨
     ∃ sysm, middle = [sysm] ∧ m_type sysm = "system" ∧
             (m_status sysm = "success" ∨ m_status sysm = "warning")).
Proof.
  assert (∀ b : bool, (if b then "success" else "warning") = "success" ∨
                      (if b then "success" else "warning") = "warning") as Hsw
    by (intros []; auto).
  assert (∀ b : bool, (if b then "success" else "error") = "success" ∨
                      (if b then "success" else "error") = "error") as Hse
    by (intros []; auto).
  unfold try_catch, catch_clause, try_body, mbind, async_bind, fetch, lift, date_now,
    setMessages, emit, mret, async_ret.
  destruct (net w setup_request) as [reason|setupResponse]; simpl;
    [by eexists [], _; cbn; split_and!; auto|].
  destruct (json setupResponse) as [setupData|]; simpl;
    [|by eexists [], _; cbn; split_and!; auto].
  destruct (get setupData "status") as [setup_status|]; simpl;
    [|by eexists [], _; cbn; split_and!; auto].
  destruct (is_str setup_status "setup_attempted"); simpl.
  - destruct (get setupData "setup_result") as [setup_result|]; simpl;
      [|by eexists [], _; cbn; split_and!; auto].
    destruct (net w (main_request _ _)) as [reason|response]; simpl;
      [|destruct (json response) as [data|]; simpl;
        [destruct (botContent _ _ _) as [content|]; simpl|]].
    all: eexists [_], _; cbn; unfold append; rewrite <- ?app_assoc; split_and!;
      [ done | reflexivity | done | done | reflexivity | first [apply Hse | by right]
      | right; eexists; split_and!; [reflexivity|reflexivity|apply Hsw] ].
  - destruct (net w (main_request _ _)) as [reason|response]; simpl;
      [|destruct (json response) as [data|]; simpl;
        [destruct (botContent _ _ _) as [content|]; simpl|]].
    all: eexists [], _; cbn; split_and!;
      [ done | reflexivity | done | done | reflexivity | first [apply Hse | by right]
      | by left ].
Qed.

(** The effects of a send that passes the guard, around those of its
    [try] and [catch]. *)
Lemma send_trace render w :
  send_disabled render = false →
  let user := {| m_id := inject_Z (clock w 0); m_type := "user";
                 m_content := inputValue render; m_timestamp := clock w 1;
                 m_status := "sent" |} in
  (handleSendMessage render w).1 =
    [Update (λ s, {| messages := append user (messages s);
                     inputValue := inputValue s; isLoading := isLoading s |});
     Update (λ s, {| messages := messages s;
                     inputValue := EmptyString; isLoading := isLoading s |});
     Update (λ s, {| messages := messages s;
                     inputValue := inputValue s; isLoading := true |})]
    ++ (try_catch (try_body (inputValue render)) catch_clause w).1
    ++ [Update (λ s, {| messages := messages s;
                        inputValue := inputValue s; isLoading := false |})]
  ∧ (handleSendMessage render w).2 = (try_catch (try_body (inputValue render)) catch_clause w).2.
Proof.
  intros Hguard. unfold send_disabled in Hguard.
  unfold handleSendMessage. rewrite Hguard.
  unfold mbind, async_bind, try_finally, date_now, setMessages, setInputValue,
    setIsLoading, emit. simpl.
  by destruct (try_catch _ _ w) as [t r].
Qed.

(** A send that passes the guard, as a whole. *)
Lemma send_run render w s :
  send_disabled render = false →
  ∃ user middle bot,
    (handleSendMessage render w).2 = Normal () ∧
    messages (apply_updates (handleSendMessage render w).1 s)
      = messages s ++ user :: middle ++ [bot] ∧
    inputValue (apply_updates (handleSendMessage render w).1 s) = EmptyString ∧
    isLoading (apply_updates (handleSendMessage render w).1 s) = false ∧
    (m_type user = "user" ∧ m_status user = "sent" ∧ m_content user = inputValue render) ∧
    (m_type bot = "bot" ∧ (m_status bot = "success" ∨ m_status bot = "error")) ∧
    (middle = [] ∨
     ∃ sysm, middle = [sysm] ∧ m_type sysm = "system" ∧
             (m_status sysm = "success" ∨ m_status sysm = "warning")).
Proof.
  intros Hguard. destruct (send_trace render w Hguard) as [-> ->].
  rewrite !apply_updates_app.
  set (s1 := apply_updates [_; _; _] s).
  destruct (reply_run (inputValue render) w s1)
    as (middle & bot & Hend & Hmsgs & Hin & Hload & Hbot & Hst & Hmid).
  set (s2 := apply_updates (try_catch _ _ w).1 s1) in *.
  eexists _, middle, bot. split; [done|]. split.
  { cbn. rewrite Hmsgs. unfold s1, append. cbn. by rewrite <- app_assoc. }
  split_and!; done.
Qed.

(** A [try] that completes has had both requests answered with JSON, and
    ends by appending the bubble made from the second answer. *)
Lemma try_body_completes input w s :
  (try_body input w).2 = Normal () →
  ∃ response data content earlier,
    net w (main_request (select_endpoint input)
             (select_requestData input (clock w 4) (clock w 5))) = Fulfilled response ∧
    json response = Normal data ∧
    botContent (select_endpoint input) (ok response) data = Normal content ∧
    messages (apply_updates (try_body input w).1 s) =
      messages s ++ earlier ++
        [{| m_id := (inject_Z (clock w 6) + 1)%Q; m_type := "bot"; m_content := content;
            m_timestamp := clock w 7;
            m_status := if ok response then "success" else "error" |}].
Proof.
  unfold try_body, mbind, async_bind, fetch, lift, date_now, setMessages, emit, mret,
    async_ret.
  destruct (net w setup_request) as [reason|setupResponse]; simpl; [done|].
  destruct (json setupResponse) as [setupData|]; simpl; [|done].
  destruct (get setupData "status") as [setup_status|]; simpl; [|done].
  destruct (is_str setup_status "setup_attempted"); simpl.
  - destruct (get setupData "setup_result") as [setup_result|]; simpl; [|done].
    destruct (net w (main_request _ _)) as [reason|response]; simpl; [done|].
    destruct (json response) as [data|] eqn:Hdata; simpl; [|done].
    destruct (botContent _ _ _) as [content|] eqn:Hcontent; simpl; [|done].
    intros _. eexists response, data, content, [_]. split_and!; try done.
    cbn. unfold append. by rewrite <- app_assoc.
  - destruct (net w (main_request _ _)) as [reason|response]; simpl; [done|].
    destruct (json response) as [data|] eqn:Hdata; simpl; [|done].
    destruct (botContent _ _ _) as [content|] eqn:Hcontent; simpl; [|done].
    intros _. by eexists response, data, content, [].
Qed.

(** One event keeps the messages well-kinded and the component at rest. *)
Lemma chat_step_keeps s ev :
  Forall well_kinded (messages s) → isLoading s = false →
  Forall well_kinded (messages (step s ev)) ∧ isLoading (step s ev) = false.
Proof.
  intros Hwk Hrest.
  assert (∀ w, Forall well_kinded (messages (apply_updates (handleSendMessage s w).1 s)) ∧
               isLoading (apply_updates (handleSendMessage s w).1 s) = false) as Hsend.
  { intros w. destruct (send_disabled s) eqn:Hguard.
    - unfold send_disabled in Hguard. unfold handleSendMessage. by rewrite Hguard.
    - destruct (send_run s w s Hguard)
        as (user & middle & bot & _ & -> & _ & -> & (Hu & Hus & _) & (Hb & Hbs) & Hmid).
      split; [|done]. apply Forall_app. split; [done|].
      apply Forall_cons. split; [by left|].
      apply Forall_app. split.
      + destruct Hmid as [->|(sysm & -> & Hs & Hss)]; [constructor|].
        apply Forall_singleton. right; left. done.
      + apply Forall_singleton. right; right. done. }
  destruct ev as [[|e|v] w]; unfold step; simpl.
  - apply Hsend.
  - unfold handleKeyPress. destruct (_ && _); simpl; [apply Hsend|done].
  - done.
Qed.

Lemma chat_run_keeps s evs :
  Forall well_kinded (messages s) → isLoading s = false →
  Forall well_kinded (messages (run s evs)) ∧ isLoading (run s evs) = false.
Proof.
  unfold run. revert s. induction evs as [|ev evs IH]; intros s Hwk Hrest; [done|].
  simpl. destruct (chat_step_keeps s ev Hwk Hrest). by apply IH.
Qed.

End WithHost.

(** Every send that passes the guard clears the input, ends with the
    loading flag down and appends, in this order, the user's message, at
    most one system message and exactly one bubble of the bot; the handler
    itself never throws. *)
Theorem accepted_send_replies_once `{Host} (render s : State) (w : World) :
  send_disabled render = false →
  ∃ user middle bot,
    (handleSendMessage render w).2 = Normal () ∧
    messages (apply_updates (handleSendMessage render w).1 s)
      = messages s ++ user :: middle ++ [bot] ∧
    inputValue (apply_updates (handleSendMessage render w).1 s) = EmptyString ∧
    isLoading (apply_updates (handleSendMessage render w).1 s) = false ∧
    (m_type user = "user" ∧ m_status user = "sent" ∧ m_content user = inputValue render) ∧
    (m_type bot = "bot" ∧ (m_status bot = "success" ∨ m_status bot = "error")) ∧
    (middle = [] ∨
     ∃ sysm, middle = [sysm] ∧ m_type sysm = "system" ∧
             (m_status sysm = "success" ∨ m_status sysm = "warning")).
Proof.
  intros Hguard.
  destruct (send_run render w s Hguard) as (user & middle & bot & Hrun).
  by exists user, middle, bot.
Qed.

Lemma accepted_send_witness :
  let render := {| messages := []; inputValue := "check status"; isLoading := false |} in
  let w := Demo.world (Demo.response true (JObj ∅)) in
  ∃ user middle bot,
    (handleSendMessage (H := Demo.host) render w).2 = Normal () ∧
    messages (apply_updates (handleSendMessage render w).1 render)
      = messages render ++ user :: middle ++ [bot] ∧
    inputValue (apply_updates (handleSendMessage render w).1 render) = EmptyString ∧
    isLoading (apply_updates (handleSendMessage render w).1 render) = false ∧
    (m_type user = "user" ∧ m_status user = "sent" ∧ m_content user = inputValue render) ∧
    (m_type bot = "bot" ∧ (m_status bot = "success" ∨ m_status bot = "error")) ∧
    (middle = [] ∨
     ∃ sysm, middle = [sysm] ∧ m_type sysm = "system" ∧
             (m_status sysm = "success" ∨ m_status sysm = "warning")).
Proof.
  intros render w.
  apply (accepted_send_replies_once (H := Demo.host) render render w). reflexivity.
Defined.

(** When the [try] of a send completes, the selected request was answered
    with JSON, and the last message is the bot's bubble: its status is
    ['success'] for an ok response and ['error'] otherwise, and its content
    is what [botContent] makes of the answer. *)
Theorem reply_status_follows_response `{Host} (render s : State) (w : World) :
  send_disabled render = false →
  (try_body (inputValue render) w).2 = Normal () →
  let input := inputValue render in
  let r := main_request (select_endpoint input)
             (select_requestData input (clock w 4) (clock w 5)) in
  ∃ response data bot,
    net w r = Fulfilled response ∧
    json response = Normal data ∧
    last (messages (apply_updates (handleSendMessage render w).1 s)) = Some bot ∧
    m_type bot = "bot" ∧
    m_status bot = (if ok response then "success" else "error") ∧
    botContent (select_endpoint input) (ok response) data = Normal (m_content bot).
Proof.
  intros Hguard Hok input r. subst input r.
  destruct (send_trace render w Hguard) as [-> _].
  rewrite !apply_updates_app.
  set (s1 := apply_updates [_; _; _] s).
  destruct (try_body_completes (inputValue render) w s1 Hok)
    as (response & data & content & earlier & Hnet & Hjson & Hcontent & Hmsgs).
  exists response, data. eexists. split; [done|]. split; [done|].
  unfold try_catch.
  destruct (try_body (inputValue render) w) as [t res]. simpl in Hok. subst res.
  cbn [fst snd] in *. set (s2 := apply_updates t s1) in *. split.
  { cbn. rewrite Hmsgs, app_assoc. apply last_snoc. }
  by split_and!.
Qed.

Lemma reply_status_witness :
  let render := {| messages := []; inputValue := "check status"; isLoading := false |} in
  let w := Demo.world (Demo.response false (JObj {[ "error" := JStr "down" ]})) in
  let r := main_request (H := Demo.host) (select_endpoint (inputValue render))
             (select_requestData (inputValue render) (clock w 4) (clock w 5)) in
  ∃ response data bot,
    net w r = Fulfilled response ∧
    json response = Normal data ∧
    last (messages (apply_updates (handleSendMessage (H := Demo.host) render w).1 render))
      = Some bot ∧
    m_type bot = "bot" ∧
    m_status bot = (if ok response then "success" else "error") ∧
    botContent (select_endpoint (inputValue render)) (ok response) data
      = Normal (m_content bot).
Proof.
  intros render w.
  apply (reply_status_follows_response (H := Demo.host) render render w); reflexivity.
Defined.

(** In every state the chat reaches, each message is the user's ([sent]),
    the system's ([success] or [warning]) or the bot's ([success] or
    [error]); so its status badge is printed, in the fallback blue exactly
    for the user's messages, its icon is never the fallback [Bot], and its
    bubble is red exactly when it is an error bubble of the bot. *)
Theorem messages_well_kinded `{Host} (t0 : Z) (evs : list (Event * World)) :
  Forall (λ m,
            well_kinded m ∧
            showsStatusBadge m = true ∧
            (getStatusColor (m_status m) = "text-blue-600" ↔ m_type m = "user") ∧
            getMessageIcon (m_type m) (m_status m) ≠ BotIcon ∧
            (bubbleClass m = "bg-red-50 border border-red-200" ↔ is_bot_error m = true))
         (messages (run (initial t0) evs)).
Proof.
  assert (Forall well_kinded (messages (run (initial t0) evs))) as Hwk.
  { apply chat_run_keeps; [|done]. apply Forall_singleton. right; left. by split; [|left]. }
  eapply Forall_impl; [exact Hwk|]. intros m Hm. split; [done|].
  unfold showsStatusBadge, getStatusColor, getMessageIcon, bubbleClass, is_bot_error.
  destruct Hm as [[-> ->]|[[-> [-> | ->]]|[-> [-> | ->]]]]; by cbn.
Qed.

(** The chat is never left loading: after any sequence of clicks, key
    presses and inputs, each send having run to its end, [isLoading] is
    [false]. *)
Theorem never_left_loading `{Host} (t0 : Z) (evs : list (Event * World)) :
  isLoading (run (initial t0) evs) = false.
Proof.
  apply chat_run_keeps; [|done]. apply Forall_singleton. right; left. by split; [|left].
Qed.

End ChatMore.

(** ** More of SystemMonitor *)

Module MonitorMore.
Import JS Effects Spec Notions SystemMonitor MonitorView EffectsFacts MonitorFacts.

Section WithHost.
Context `{Host}.

(** A [try] that throws has not yet set [systemData] nor [lastUpdate], has
    logged nothing, and has only assigned into objects of the store. *)
Lemma try_body_throws_frame captured w e s :
  (try_body captured w).2 = Throw e →
  systemData (apply_updates (try_body captured w).1 s) = systemData s ∧
  lastUpdate (apply_updates (try_body captured w).1 s) = lastUpdate s ∧
  length (heap (apply_updates (try_body captured w).1 s)) = length (heap s) ∧
  console (try_body captured w).1 = [].
Proof.
  unfold try_body, mbind, async_bind, settled, lift, assign, setSystemData, setLastUpdate,
    date_now, math_random, emit, mret, async_ret, value_json.
  simpl.
  destruct (net w status_request) as [r1|[[] json1]];
  destruct (net w learning_request) as [r2|[[] json2]];
  destruct (net w flowise_request) as [r3|[[] json3]]; simpl.
  all: repeat match goal with
       | |- context [match ?c with Normal _ => _ | Throw _ => _ end] =>
           destruct c; simpl; try discriminate
       end.
  all: intros _; cbn; by rewrite ?length_alter.
Qed.

End WithHost.

(** When a poll reaches the outer [catch] (a body that is not JSON, or is
    [null]), the failure is logged once, [status] becomes ['error'], all
    three polled services show ['offline'], and the metrics, the learning
    data, the performance window and the time of the last update stay as
    they were. *)
Theorem poll_failure_marks_all_offline `{Host}
    (captured : SystemData) (s : State) (w : World) (e : string) :
  (try_body captured w).2 = Throw e →
  let s' := apply_updates (fetchSystemData captured w).1 s in
  status (systemData s') = JStr "error" ∧
  service_badges s' =
    [ ("Backend API", JStr "offline"); ("Lern-Engine", JStr "offline");
      ("Flowise", JStr "offline"); ("LLM Service", JStr "checking") ] ∧
  metrics (systemData s') = metrics (systemData s) ∧
  learning (systemData s') = learning (systemData s) ∧
  performance (systemData s') = performance (systemData s) ∧
  lastUpdate s' = lastUpdate s ∧
  console (fetchSystemData captured w).1 = [("Failed to fetch system data:", e)].
Proof.
  intros Hthrow s'. subst s'.
  destruct (try_body_throws_frame captured w e s Hthrow) as (Hdata & Hlast & Hlen & Hlog).
  unfold fetchSystemData, try_catch.
  destruct (try_body captured w) as [t r]. cbn [fst snd] in *. subst r.
  unfold catch_clause, setSystemData_error, mbind, async_bind, emit. cbn [fst snd].
  rewrite apply_updates_app. set (s1 := apply_updates t s) in *.
  unfold console. rewrite omap_app. fold (console t). rewrite Hlog.
  cbn. rewrite Hdata, Hlast. split_and!; try done.
  unfold service_badges. cbn.
  rewrite (list_lookup_middle (heap s1) [] all_offline (length (heap s1)) eq_refl).
  reflexivity.
Qed.

Lemma poll_failure_witness :
  let w := Demo.world (Fulfilled {| ok := true; json := Throw "Unexpected token" |}) in
  let s' := apply_updates (fetchSystemData (H := Demo.host) initialSystemData w).1 (initial 0) in
  status (systemData s') = JStr "error" ∧
  service_badges s' =
    [ ("Backend API", JStr "offline"); ("Lern-Engine", JStr "offline");
      ("Flowise", JStr "offline"); ("LLM Service", JStr "checking") ] ∧
  metrics (systemData s') = metrics (systemData (initial 0)) ∧
  learning (systemData s') = learning (systemData (initial 0)) ∧
  performance (systemData s') = performance (systemData (initial 0)) ∧
  lastUpdate s' = lastUpdate (initial 0) ∧
  console (fetchSystemData (H := Demo.host) initialSystemData w).1
    = [("Failed to fetch system data:", "Unexpected token")].
Proof.
  intros w.
  apply (poll_failure_marks_all_offline (H := Demo.host) initialSystemData (initial 0) w
           "Unexpected token").
  reflexivity.
Defined.

(** In a poll that completes, a service whose request failed leaves the
    data it feeds as the handler's closure had it: [status] and [metrics]
    for the backend, [learning] for the learning engine, and for Flowise
    the [flowise_endpoint] of the shared [services] object, which keeps
    its old value beside the new ['offline']. *)
Theorem failed_service_keeps_data `{Host}
    (captured : SystemData) (s : State) (w : World) (before : gmap string JsVal) :
  heap s !! services captured = Some before →
  (try_body captured w).2 = Normal () →
  let s' := apply_updates (fetchSystemData captured w).1 s in
  (fulfilled_ok (net w status_request) = false →
     status (systemData s') = status captured ∧
     metrics (systemData s') = metrics captured) ∧
  (fulfilled_ok (net w learning_request) = false →
     learning (systemData s') = learning captured) ∧
  (fulfilled_ok (net w flowise_request) = false →
     ∃ after, heap s' !! services captured = Some after ∧
              after !! "flowise" = Some (JStr "offline") ∧
              after !! "flowise_endpoint" = before !! "flowise_endpoint").
Proof.
  intros Hbefore Hok s'. subst s'. revert Hok.
  unfold fetchSystemData, try_catch, try_body, mbind, async_bind, settled, lift,
    assign, setSystemData, setLastUpdate, date_now, math_random, emit, mret, async_ret,
    value_json.
  simpl.
  destruct (net w status_request) as [r1|[[] json1]];
  destruct (net w learning_request) as [r2|[[] json2]];
  destruct (net w flowise_request) as [r3|[[] json3]]; simpl.
  all: repeat match goal with
       | |- context [match ?c with Normal _ => _ | Throw _ => _ end] =>
           destruct c; simpl; try discriminate
       end.
  all: intros _; cbn; rewrite ?list_lookup_alter_eq, ?Hbefore; simpl.
  all: split_and!; try done.
  all: intros _; eexists; split; [reflexivity|]; by simplify_map_eq.
Qed.

Lemma failed_service_witness :
  let s := {| heap := [ {[ "flowise_endpoint" := JStr "http://flowise:3000" ]} ];
              systemData := initialSystemData; lastUpdate := 0 |} in
  let s' := apply_updates
              (fetchSystemData (H := Demo.host) initialSystemData Demo.mixed_world).1 s in
  (fulfilled_ok (net Demo.mixed_world status_request) = false →
     status (systemData s') = status initialSystemData ∧
     metrics (systemData s') = metrics initialSystemData) ∧
  (fulfilled_ok (net Demo.mixed_world learning_request) = false →
     learning (systemData s') = learning initialSystemData) ∧
  (fulfilled_ok (net Demo.mixed_world flowise_request) = false →
     ∃ after, heap s' !! services initialSystemData = Some after ∧
              after !! "flowise" = Some (JStr "offline") ∧
              after !! "flowise_endpoint" =
                ({[ "flowise_endpoint" := JStr "http://flowise:3000" ]} : gmap string JsVal)
                  !! "flowise_endpoint").
Proof.
  intros s.
  apply (failed_service_keeps_data (H := Demo.host) initialSystemData s Demo.mixed_world
           {[ "flowise_endpoint" := JStr "http://flowise:3000" ]}); reflexivity.
Defined.

(** Twenty refreshes, then one more: the state on which the cap shows. *)
Lemma refresh_window_witness :
  let w := Demo.world (Demo.response true (JObj ∅)) in
  let s := run (H := Demo.host) (initial 0) (replicate 20 (Refresh w)) in
  let before := performance (systemData s) in
  let after := performance (systemData (step (H := Demo.host) s (Refresh w))) in
  length after ≤ 20 ∧
  (length before < 20 → ∃ sample, after = before ++ [sample]) ∧
  (length before = 20 → ∃ sample, after = drop 1 before ++ [sample]).
Proof.
  intros w s.
  apply (refresh_window_capped (H := Demo.host) s w). reflexivity.
Defined.

(** The dot and the badge of a status agree on every value: green with
    [default] exactly for ['active'], ['online'] and ['success'], yellow
    with [secondary] exactly for ['warning'], red with [destructive]
    exactly for ['error'] and ['offline'], and grey with [outline] exactly
    for every other value. *)
Theorem dot_and_badge_agree (status : JsVal) :
  (getStatusColor status = "bg-green-500" ∧ getStatusBadge status = "default"
     ↔ status ∈ [JStr "active"; JStr "online"; JStr "success"]) ∧
  (getStatusColor status = "bg-yellow-500" ∧ getStatusBadge status = "secondary"
     ↔ status = JStr "warning") ∧
  (getStatusColor status = "bg-red-500" ∧ getStatusBadge status = "destructive"
     ↔ status ∈ [JStr "error"; JStr "offline"]) ∧
  (getStatusColor status = "bg-gray-500" ∧ getStatusBadge status = "outline"
     ↔ status ∉ [JStr "active"; JStr "online"; JStr "success"; JStr "warning";
                 JStr "error"; JStr "offline"]).
Proof.
  rewrite !elem_of_cons, !elem_of_nil.
  assert (∀ (P Q : Prop), P → Q → (P ↔ Q)) as Hboth by tauto.
  assert (∀ (P Q : Prop), ¬ P → ¬ Q → (P ↔ Q)) as Hneither by tauto.
  destruct status as [| | | |s| |].
  5: unfold getStatusColor, getStatusBadge;
     destruct (String.eqb_spec s "active") as [->|?]; [|
     destruct (String.eqb_spec s "online") as [->|?]; [|
     destruct (String.eqb_spec s "success") as [->|?]; [|
     destruct (String.eqb_spec s "warning") as [->|?]; [|
     destruct (String.eqb_spec s "error") as [->|?]; [|
     destruct (String.eqb_spec s "offline") as [->|?]]]]]].
  all: cbn; split_and!.
  all: first
    [ apply Hboth;
      [ done
      | first [ done | solve [eauto 10]
              | intros Hx;
                repeat match goal with H : _ ∨ _ |- _ => destruct H as [H|H] end;
                by simplify_eq ] ]
    | apply Hneither;
      [ by intros []
      | first [ intros Hx;
                repeat match goal with H : _ ∨ _ |- _ => destruct H as [H|H] end;
                by simplify_eq
              | intros Hn; apply Hn; solve [eauto 10] ] ] ].
Qed.

(** In every state the component reaches, the rows of the three polled
    services are a green dot with a [default] badge reading ['online'] or a
    red dot with a [destructive] badge reading ['offline']; the row of the
    LLM service is always grey, [outline], ['checking']. *)
Theorem service_rows_colours `{Host} (t0 : Z) (events : list Event) :
  ∃ backend learning flowise,
    service_rows (run (initial t0) events) =
      [ backend; learning; flowise;
        {| row_name := "LLM Service"; row_dot := "bg-gray-500";
           row_variant := "outline"; row_text := JStr "checking" |} ] ∧
    (row_name backend = "Backend API" ∧ row_name learning = "Lern-Engine" ∧
     row_name flowise = "Flowise") ∧
    Forall (λ r,
              (row_text r = JStr "online" ∧ row_dot r = "bg-green-500" ∧
               row_variant r = "default") ∨
              (row_text r = JStr "offline" ∧ row_dot r = "bg-red-500" ∧
               row_variant r = "destructive"))
           [backend; learning; flowise].
Proof.
  assert (services_two_valued (run (initial t0) events)) as Hinv.
  { apply run_keeps. repeat constructor; by left. }
  set (s := run (initial t0) events) in *.
  unfold service_rows, service_badges.
  assert (two_valued (default ∅ (heap s !! services (systemData s))) "backend" ∧
          two_valued (default ∅ (heap s !! services (systemData s))) "learning" ∧
          two_valued (default ∅ (heap s !! services (systemData s))) "flowise")
    as (Hb & Hl & Hf).
  { destruct (heap s !! services (systemData s)) as [o|] eqn:Ho; simpl.
    - unfold services_two_valued in Hinv. rewrite Forall_lookup in Hinv. by eapply Hinv.
    - split_and!; by left. }
  do 3 eexists. split; [reflexivity|]. split; [done|].
  repeat apply Forall_cons_2; [..|constructor]; cbn [ServiceStatus row_text row_dot row_variant fst snd].
  - destruct (badge_two_valued _ _ Hb) as [-> | ->]; [by left|by right].
  - destruct (badge_two_valued _ _ Hl) as [-> | ->]; [by left|by right].
  - destruct (badge_two_valued _ _ Hf) as [-> | ->]; [by left|by right].
Qed.

End MonitorMore.

(** ** More of FlowiseManager *)

Module FlowiseMore.
Import JS Effects Spec Notions FlowiseManager EffectsFacts.

Ltac unfold_poll :=
  unfold fetchFlowiseData, try_finally, try_catch, mbind, async_bind, fetch, lift, emit,
    mret, async_ret, setLoading, setFlowiseConfig, setChatflows; simpl.

Ltac poll_cases w :=
  repeat match goal with
    | |- context [net w ?r] =>
        let Hnet := fresh "Hnet" in
        destruct (net w r) as [?|[[] ?]] eqn:Hnet; simpl
    | |- context [match ?c with Normal _ => _ | Throw _ => _ end] =>
        lazymatch c with
        | context [match _ with Normal _ => _ | Throw _ => _ end] => fail
        | _ => destruct c; simpl
        end
    end.

(** The poll of the panel always settles: it never throws, whatever the
    network does, it logs at most one line, and it ends with the spinner
    off. *)
Theorem fetchFlowiseData_settles (w : World) (s : State) :
  (fetchFlowiseData w).2 = Normal () ∧
  loading (apply_updates (fetchFlowiseData w).1 s) = false ∧
  length (console (fetchFlowiseData w).1) ≤ 1.
Proof.
  unfold_poll. poll_cases w.
  all: split_and!; [reflexivity|reflexivity|cbn; lia].
Qed.

(** When a request the poll sent is rejected by the network, the poll
    stops there: the reason is the one line it logs, and the panel's
    status becomes ['offline']. *)
Theorem rejected_poll_marks_offline (w : World) (s : State) (r : Request) (reason : string) :
  r ∈ requests (fetchFlowiseData w).1 →
  net w r = Rejected reason →
  console (fetchFlowiseData w).1 = [("Failed to fetch Flowise data:", reason)] ∧
  get (flowiseConfig (apply_updates (fetchFlowiseData w).1 s)) "status"
    = Normal (JStr "offline").
Proof.
  unfold_poll. poll_cases w.
  all: cbn [requests omap]; rewrite ?elem_of_cons, elem_of_nil.
  all: intros Hr Hrej.
  all: repeat match goal with H : _ ∨ _ |- _ => destruct H as [H|H] end; try done.
  all: subst r; try congruence.
  all: split; [congruence|]; cbn; by rewrite lookup_insert_eq.
Qed.

Lemma rejected_poll_witness :
  let w := Demo.world (Rejected "Failed to fetch") in
  console (fetchFlowiseData w).1 = [("Failed to fetch Flowise data:", "Failed to fetch")] ∧
  get (flowiseConfig (apply_updates (fetchFlowiseData w).1 initial)) "status"
    = Normal (JStr "offline").
Proof.
  intros w.
  apply (rejected_poll_marks_offline w initial config_request "Failed to fetch");
    [|reflexivity].
  vm_compute. apply list_elem_of_here.
Defined.

(** The updater of the connection test writes one of the two states into
    [status] and [llm_status] and keeps the other keys, or fails. *)
Lemma connection_updater_writes testData s :
  (∃ e, connection_updater testData s = with_render_error e s) ∨
  (∃ a b : bool,
     connection_updater testData s =
       with_flowiseConfig
         (JObj (<["llm_status" := mark b]> (<["status" := mark a]> (spread (flowiseConfig s)))))
         s).
Proof.
  unfold connection_updater, updater, cbind, online_if_success.
  destruct (get testData "flowise") as [fl|e]; [|left; by eexists].
  destruct (get fl "status") as [st|e]; [|left; by eexists].
  destruct (get testData "llm") as [llm|e]; [|left; by eexists].
  destruct (get llm "status") as [lst|e]; [|left; by eexists].
  right. by exists (is_str st "success"), (is_str lst "success").
Qed.

Lemma connection_updater_chatflows testData s :
  chatflows (connection_updater testData s) = chatflows s.
Proof. by destruct (connection_updater_writes testData s) as [[e ->]|(a & b & ->)]. Qed.




(** A render throws when the backend lists the chatflows as something that
    is no array, here a text: the panel prints no badge at all. *)
Lemma text_for_chatflows_breaks_render :
  let w := Samples.flowise_backend (JStr "none") in
  console (fetchFlowiseData w).1 = [] ∧
  status_badges (apply_updates (fetchFlowiseData w).1 initial)
    = Throw "chatflows.map is not a function".
Proof. by vm_compute. Qed.

(** When the chatflows request was sent and the answer was not ok, the
    list of chatflows is emptied. *)
Theorem refused_chatflows_empty_list (w : World) (s : State) (response : Response) :
  chatflows_request ∈ requests (fetchFlowiseData w).1 →
  net w chatflows_request = Fulfilled response →
  ok response = false →
  chatflows (apply_updates (fetchFlowiseData w).1 s) = JArr [].
Proof.
  unfold_poll. poll_cases w.
  all: cbn [requests omap]; rewrite ?elem_of_cons, elem_of_nil.
  all: intros Hr Hnet' Hno.
  all: repeat match goal with H : _ ∨ _ |- _ => destruct H as [H|H] end; try done.
  all: try (rewrite Hnet' in *; simplify_eq; simpl in *; discriminate).
  all: cbn; by rewrite ?connection_updater_chatflows.
Qed.

Lemma refused_chatflows_witness :
  let w := Demo.world (Demo.response false JNull) in
  chatflows (apply_updates (fetchFlowiseData w).1
               (with_chatflows (JArr [JObj ∅]) initial)) = JArr [].
Proof.
  intros w.
  apply (refused_chatflows_empty_list w _ {| ok := false; json := Normal JNull |});
    [|reflexivity..].
  vm_compute. apply list_elem_of_further, list_elem_of_here.
Defined.

Section WithHost.
Context `{Host}.


(** When the request of a create, optimise or auto-optimise action does not
    succeed, the handler changes no state and opens no dialog: a rejected
    request is logged once with the handler's label, and a response that is
    not ok leaves no trace at all. *)
Theorem failed_action_changes_nothing (a : Action) (w : World) (r : Request) :
  action_request a = Normal r →
  succeeded (net w r) = false →
  (act a w).2 = Normal () ∧
  requests (act a w).1 = [r] ∧
  updates (act a w).1 = [] ∧
  alerts (act a w).1 = [] ∧
  console (act a w).1 =
    match net w r with
    | Rejected reason => [(action_label a, reason)]
    | Fulfilled _ => []
    end.
Proof.
  intros Hreq Hfail. destruct a as [render|chatflowId|]; simpl in *.
  - unfold handleCreateChatflow. rewrite Hreq.
    unfold try_catch, mbind, async_bind, fetch, lift, emit, mret, async_ret. simpl.
    destruct (net w r) as [reason|[[] body]]; simpl in *; done.
  - injection Hreq as <-.
    unfold handleOptimizeChatflow, try_catch, mbind, async_bind, fetch, lift, emit, mret,
      async_ret. simpl.
    destruct (net w (optimize_request chatflowId)) as [reason|[[] body]]; simpl in *; done.
  - injection Hreq as <-.
    unfold handleAutoOptimize, try_catch, mbind, async_bind, fetch, lift, emit, mret,
      async_ret. simpl.
    destruct (net w auto_optimize_request) as [reason|[[] body]]; simpl in *; done.
Qed.

End WithHost.


Lemma failed_action_witness :
  let w := Demo.world (Rejected "Failed to fetch") in
  let r := optimize_request (H := Demo.host) (JNum 3) in
  (act (H := Demo.host) (Optimize (JNum 3)) w).2 = Normal () ∧
  requests (act (H := Demo.host) (Optimize (JNum 3)) w).1 = [r] ∧
  updates (act (H := Demo.host) (Optimize (JNum 3)) w).1 = [] ∧
  alerts (act (H := Demo.host) (Optimize (JNum 3)) w).1 = [] ∧
  console (act (H := Demo.host) (Optimize (JNum 3)) w).1 =
    match net w r with
    | Rejected reason => [(action_label (Optimize (JNum 3)), reason)]
    | Fulfilled _ => []
    end.
Proof.
  intros w r.
  apply (failed_action_changes_nothing (H := Demo.host) (Optimize (JNum 3)) w r);
    reflexivity.
Defined.

End FlowiseMore.

(** ** More of App *)

Module AppMore.
Import JS Effects Spec App AppView.

(** The status check of the first render asks once, logs nothing whatever
    happens, and ends with [systemStatus] at ['active'] when the request
    succeeded and at ['error'] otherwise; so the header badge stops reading
    "Lädt...", and the tab and the sidebar are left alone. *)
Theorem mount_check_sets_status (w : World) (s : State) :
  let s' := apply_updates (useEffect_mount w).1 s in
  (useEffect_mount w).2 = Normal () ∧
  requests (useEffect_mount w).1 = [status_request] ∧
  console (useEffect_mount w).1 = [] ∧
  systemStatus s' = (if succeeded (net w status_request) then "active" else "error") ∧
  header_text (systemStatus s') ≠ "Lädt..." ∧
  header_variant (systemStatus s') =
    (if succeeded (net w status_request) then "default" else "destructive") ∧
  activeTab s' = activeTab s ∧ sidebarOpen s' = sidebarOpen s.
Proof.
  unfold useEffect_mount, try_catch, mbind, async_bind, fetch, setSystemStatus, emit.
  simpl. by destruct (net w status_request) as [?|[[] ?]].
Qed.

End AppMore.

(** ** More of the scripts *)

Module ScriptsMore.
Import Shell.

Ltac by_status env :=
  repeat match goal with
    | |- context [exit_status env ?c =? 0] =>
        let E := fresh "E" in
        destruct (exit_status env c =? 0) eqn:E; simpl
    end.

Lemma eqb_status_0 n : (n =? 0) = true → n = 0.
Proof. apply Nat.eqb_eq. Qed.

Lemma eqb_status_not_0 n : (n =? 0) = false → n ≠ 0.
Proof. apply Nat.eqb_neq. Qed.

(** stop.sh runs [docker-compose down] and nothing else, exits with its
    status, and prints "[STOPPED] ... stopped!" exactly when it succeeded. *)
Theorem stop_sh_reports (env : Env) :
  commands (run_script env StopScript.stop_sh).1 = [StopScript.down] ∧
  (run_script env StopScript.stop_sh).2 = exit_status env StopScript.down ∧
  (StopScript.stopped ∈ output (run_script env StopScript.stop_sh).1 ↔
   exit_status env StopScript.down = 0).
Proof.
  unfold run_script, StopScript.stop_sh. simpl.
  destruct (exit_status env StopScript.down =? 0) eqn:E; simpl.
  - apply eqb_status_0 in E. split_and!; [done|done|]. split; [done|].
    intros _. apply (bool_decide_unpack _). by vm_compute.
  - apply eqb_status_not_0 in E. split_and!; [done|done|]. split; [|done].
    intros Hin. apply (bool_decide_pack _) in Hin. by vm_compute in Hin.
Qed.

(** Without [docker] or without [docker-compose] on the path, setup.sh
    exits with status 1 before it runs any command. *)
Theorem setup_needs_docker (env : Env) :
  command_exists env "docker" = false ∨ command_exists env "docker-compose" = false →
  (run_script env SetupScript.setup_sh).2 = 1 ∧
  commands (run_script env SetupScript.setup_sh).1 = [].
Proof.
  intros Hmissing. unfold run_script, SetupScript.setup_sh. simpl.
  destruct (command_exists env "docker"); simpl; [|done].
  destruct Hmissing as [?|Hdc]; [done|]. by rewrite Hdc.
Qed.

Lemma setup_needs_docker_witness :
  (run_script Samples.no_docker SetupScript.setup_sh).2 = 1 ∧
  commands (run_script Samples.no_docker SetupScript.setup_sh).1 = [].
Proof. apply (setup_needs_docker Samples.no_docker). by left. Defined.

(** With both tools present and the directory, permission, copy, build,
    start and wait commands succeeding, setup.sh runs to its end with
    status 0 and prints "Setup completed!", whatever the three health
    checks and the model pull return: it runs all four and only warns. *)
Theorem setup_survives_soft_failures (env : Env) :
  command_exists env "docker" = true →
  command_exists env "docker-compose" = true →
  Forall (λ c, exit_status env c = 0) SetupScript.hard_commands →
  (run_script env SetupScript.setup_sh).2 = 0 ∧
  SetupScript.completed ∈ output (run_script env SetupScript.setup_sh).1 ∧
  commands (run_script env SetupScript.setup_sh).1 =
    [SetupScript.mkdir_data; SetupScript.mkdir_monitoring; SetupScript.mkdir_dev;
     SetupScript.chmod_scripts; SetupScript.chmod_data; SetupScript.chmod_monitoring]
    ++ (if file_exists env ".env.local" then [] else [SetupScript.cp_env])
    ++ [SetupScript.build; SetupScript.up; SetupScript.sleep]
    ++ SetupScript.soft_commands.
Proof.
  intros Hd Hdc Hhard. unfold SetupScript.hard_commands in Hhard.
  repeat match goal with
    | H : Forall _ (_ :: _) |- _ => apply Forall_cons in H as [? H]
    end.
  unfold run_script, SetupScript.setup_sh, SetupScript.soft_commands.
  unfold SetupScript.mkdir_data, SetupScript.mkdir_monitoring, SetupScript.mkdir_dev,
    SetupScript.chmod_scripts, SetupScript.chmod_data, SetupScript.chmod_monitoring,
    SetupScript.cp_env, SetupScript.build, SetupScript.up, SetupScript.sleep,
    docker_compose in *.
  simpl. rewrite Hd, Hdc. simpl.
  repeat match goal with H : exit_status _ _ = 0 |- _ => rewrite H; clear H end.
  simpl. destruct (file_exists env ".env.local"); simpl.
  all: repeat match goal with H : exit_status _ _ = 0 |- _ => rewrite H; clear H end.
  all: simpl; by_status env.
  all: split_and!; [done| |done].
  all: apply (bool_decide_unpack _); by vm_compute.
Qed.

Lemma setup_survives_witness :
  (run_script Samples.nothing_healthy SetupScript.setup_sh).2 = 0 ∧
  SetupScript.completed ∈ output (run_script Samples.nothing_healthy SetupScript.setup_sh).1 ∧
  commands (run_script Samples.nothing_healthy SetupScript.setup_sh).1 =
    [SetupScript.mkdir_data; SetupScript.mkdir_monitoring; SetupScript.mkdir_dev;
     SetupScript.chmod_scripts; SetupScript.chmod_data; SetupScript.chmod_monitoring]
    ++ (if file_exists Samples.nothing_healthy ".env.local" then [] else [SetupScript.cp_env])
    ++ [SetupScript.build; SetupScript.up; SetupScript.sleep]
    ++ SetupScript.soft_commands.
Proof.
  apply (setup_survives_soft_failures Samples.nothing_healthy); [reflexivity..|].
  unfold SetupScript.hard_commands. repeat (apply Forall_cons; split; [reflexivity|]).
  constructor.
Defined.

(** setup.sh copies [.env] to [.env.local] only when [.env.local] does not
    exist: an existing local environment file is never overwritten. *)
Theorem setup_keeps_env_local (env : Env) :
  SetupScript.cp_env ∈ commands (run_script env SetupScript.setup_sh).1 →
  file_exists env ".env.local" = false.
Proof.
  unfold run_script, SetupScript.setup_sh. simpl.
  destruct (command_exists env "docker"); simpl; [|by rewrite elem_of_nil].
  destruct (command_exists env "docker-compose"); simpl; [|by rewrite elem_of_nil].
  destruct (file_exists env ".env.local"); simpl; [|done].
  by_status env.
  all: intros Hin; apply (bool_decide_pack _) in Hin; by vm_compute in Hin.
Qed.

Lemma setup_keeps_env_local_witness :
  file_exists Samples.nothing_healthy ".env.local" = false.
Proof.
  apply (setup_keeps_env_local Samples.nothing_healthy).
  apply (bool_decide_unpack _). by vm_compute.
Defined.

(** setup.sh exits with status 0 exactly when it printed "Setup
    completed!": a run that stopped early, for a missing tool or a failed
    command, neither claims success nor exits clean. *)
Theorem setup_success_is_reported (env : Env) :
  (run_script env SetupScript.setup_sh).2 = 0 ↔
  SetupScript.completed ∈ output (run_script env SetupScript.setup_sh).1.
Proof.
  unfold run_script, SetupScript.setup_sh. simpl.
  destruct (command_exists env "docker"); simpl.
  2: { split; [done|]. intros Hin. apply (bool_decide_pack _) in Hin. by vm_compute in Hin. }
  destruct (command_exists env "docker-compose"); simpl.
  2: { split; [done|]. intros Hin. apply (bool_decide_pack _) in Hin. by vm_compute in Hin. }
  destruct (file_exists env ".env.local"); simpl.
  all: by_status env.
  all: repeat match goal with
       | E : (_ =? 0) = false |- _ => apply eqb_status_not_0 in E
       | E : (_ =? 0) = true |- _ => clear E
       end.
  all: split;
    [ first [ done | intros _; apply (bool_decide_unpack _); by vm_compute ]
    | first [ done
            | intros Hin; apply (bool_decide_pack _) in Hin; by vm_compute in Hin ] ].
Qed.

(** start.sh stops at the first command that fails. With the compose file
    there, when the commands before one of [up], the wait and [ps] succeed
    and that one fails, the script has run them and it and nothing after,
    exits with its status, and prints neither the success line nor the
    access point. *)
Theorem start_sh_stops_at_first_failure (env : StartScript.Env)
    (before after : list (list string)) (c : list string) :
  StartScript.file_exists env "docker-compose.yaml" = true →
  [StartScript.up; StartScript.sleep; StartScript.ps] = before ++ c :: after →
  Forall (λ d, StartScript.exit_status env d = 0) before →
  StartScript.exit_status env c ≠ 0 →
  StartScript.commands (StartScript.run_script env StartScript.start_sh).1
    = before ++ [c] ∧
  (StartScript.run_script env StartScript.start_sh).2 = StartScript.exit_status env c ∧
  (Notions.started ∉
     StartScript.output (StartScript.run_script env StartScript.start_sh).1) ∧
  (StartScript.access_point ∉
     StartScript.output (StartScript.run_script env StartScript.start_sh).1).
Proof.
  intros Hfile Hsplit Hbefore Hfails.
  apply Nat.eqb_neq in Hfails.
  assert (∀ d, StartScript.exit_status env d = 0 →
               (StartScript.exit_status env d =? 0) = true) as Hzero
    by (intros d ->; done).
  unfold StartScript.run_script, StartScript.start_sh. simpl. rewrite Hfile. simpl.
  destruct before as [|b1 [|b2 [|b3 before]]]; simplify_eq/=.
  4: by destruct before.
  all: repeat match goal with
         | H : Forall _ (_ :: _) |- _ => apply Forall_cons in H as [?%Hzero H]
         end.
  all: repeat match goal with
         | H : (StartScript.exit_status _ _ =? 0) = _ |- _ => rewrite H; simpl
         end.
  all: split_and!; [done|done|..].
  all: intros Hin; apply (bool_decide_pack _) in Hin; by vm_compute in Hin.
Qed.

Lemma start_sh_stops_witness :
  StartScript.commands (StartScript.run_script Samples.ps_fails StartScript.start_sh).1
    = [StartScript.up; StartScript.sleep] ++ [StartScript.ps] ∧
  (StartScript.run_script Samples.ps_fails StartScript.start_sh).2
    = StartScript.exit_status Samples.ps_fails StartScript.ps ∧
  (Notions.started ∉
     StartScript.output (StartScript.run_script Samples.ps_fails StartScript.start_sh).1) ∧
  (StartScript.access_point ∉
     StartScript.output (StartScript.run_script Samples.ps_fails StartScript.start_sh).1).
Proof.
  apply (start_sh_stops_at_first_failure Samples.ps_fails
           [StartScript.up; StartScript.sleep] [] StartScript.ps).
  - reflexivity.
  - reflexivity.
  - repeat constructor.
  - vm_compute. lia.
Defined.

End ScriptsMore.
